(** * FASTr geometry extractor: a verified model of [geometry_extractor.py]

    The development embeds the class [GeometryExtractor] of
    [src/python/geometry_extractor.py] in Gallina and proves the properties
    that its specification states about it.

    Layout:
    - [PyStr]: the [str] methods the extractor calls ([strip], [split],
      [in], [startswith], [endswith], [upper], ...), on ASCII text;
    - [PyNum]: [int(...)], [float(...)], float arithmetic and [repr], with
      IEEE-754 binary64 values taken from the Standard Library's [SpecFloat];
    - [Geometry]: the result dictionary [self.geometry] as records;
    - [FileStore]: [self.files], a dictionary in insertion order;
    - [Extractor]: the methods of the class, one definition per method, the
      shared [self.geometry] threaded explicitly through the calls;
    - [Spec] and [Examples]: the notions and the inputs the specification
      talks about;
    - the facts about the primitives and the parsers, and then [Claims]:
      one theorem per claim of the specification.

    Conventions of the embedding.
    - A Python [str] is a [string]; its characters are read as ASCII.  The
      [str] methods below follow Python on code points below 128 (its
      whitespace set, its letter case); a character at or above 128 is treated
      as an ordinary symbol.
    - [None] is the [None] of [option]; a dictionary key that may be missing
      is an [option] field, so a key bound to [None] is [Some None].
    - A method that mutates [self.geometry] takes the geometry and returns
      the new one.  The [try ... except Exception] wrappers of the parsers
      guard bodies in which every operation is total on strings (the only
      raising calls, [float] and [int], sit under their own handlers), so the
      handlers are unreachable and the methods return [True]. *)

From Stdlib Require Import ZArith List String Ascii Bool Lia DecimalString.
From Stdlib Require Import Floats.SpecFloat.
Import ListNotations.

Local Open Scope string_scope.
Local Open Scope bool_scope.

(* ===================================================================== *)
(** * Python [str] methods *)
(* ===================================================================== *)

Module PyStr.

Definition dquote : ascii := "034"%char.
Definition squote : ascii := "039"%char.
Definition newline : ascii := "010"%char.

(** [str.isspace] on one ASCII character: tab, line feed, vertical tab,
    form feed, carriage return, the four separators 28..31, and space. *)
Definition is_space (c : ascii) : bool :=
  let n := nat_of_ascii c in
  ((9 <=? n)%nat && (n <=? 13)%nat) || ((28 <=? n)%nat && (n <=? 32)%nat).

(** Truth value of a string: [bool(s)]. *)
Definition truthy (s : string) : bool :=
  match s with EmptyString => false | String _ _ => true end.

Fixpoint mem_char (c : ascii) (chars : string) : bool :=
  match chars with
  | EmptyString => false
  | String d r => Ascii.eqb c d || mem_char c r
  end.

Fixpoint lstrip_by (p : ascii -> bool) (s : string) : string :=
  match s with
  | EmptyString => EmptyString
  | String c r => if p c then lstrip_by p r else s
  end.

Fixpoint rstrip_by (p : ascii -> bool) (s : string) : string :=
  match s with
  | EmptyString => EmptyString
  | String c r =>
      match rstrip_by p r with
      | EmptyString => if p c then EmptyString else String c EmptyString
      | String _ _ as r' => String c r'
      end
  end.

Definition strip_by (p : ascii -> bool) (s : string) : string :=
  rstrip_by p (lstrip_by p s).

(** [s.strip()] *)
Definition strip (s : string) : string := strip_by is_space s.

(** [s.strip(chars)] *)
Definition strip_chars (chars : string) (s : string) : string :=
  strip_by (fun c => mem_char c chars) s.

(** Splitting at every character that satisfies [p]: [s.split(sep)] for a
    one-character separator, and [re.split] for a one-character class.
    The result always has at least one element. *)
Fixpoint split_by (p : ascii -> bool) (s : string) : list string :=
  match s with
  | EmptyString => [EmptyString]
  | String c r =>
      if p c then EmptyString :: split_by p r
      else match split_by p r with
           | h :: t => String c h :: t
           | [] => [String c EmptyString]
           end
  end.

(** [s.split(sep)], [sep] one character *)
Definition split_char (sep : ascii) (s : string) : list string :=
  split_by (Ascii.eqb sep) s.

(** [s.split()]: the maximal runs of non-whitespace characters *)
Fixpoint split_ws (s : string) : list string :=
  match s with
  | EmptyString => []
  | String c r =>
      if is_space c then split_ws r
      else match r with
           | EmptyString => [String c EmptyString]
           | String c' _ =>
               if is_space c' then String c EmptyString :: split_ws r
               else match split_ws r with
                    | h :: t => String c h :: t
                    | [] => [String c EmptyString]
                    end
           end
  end.

(** [s.startswith(p)] *)
Definition startswith (p s : string) : bool := String.prefix p s.

(** [s.endswith(suffix)] *)
Fixpoint endswith (suffix s : string) : bool :=
  String.eqb s suffix ||
  match s with
  | EmptyString => false
  | String _ r => endswith suffix r
  end.

(** [needle in hay] *)
Fixpoint contains (needle hay : string) : bool :=
  String.prefix needle hay ||
  match hay with
  | EmptyString => false
  | String _ r => contains needle r
  end.

Definition upper_char (c : ascii) : ascii :=
  let n := nat_of_ascii c in
  if (97 <=? n)%nat && (n <=? 122)%nat then ascii_of_nat (n - 32) else c.

Definition lower_char (c : ascii) : ascii :=
  let n := nat_of_ascii c in
  if (65 <=? n)%nat && (n <=? 90)%nat then ascii_of_nat (n + 32) else c.

Fixpoint map_chars (f : ascii -> ascii) (s : string) : string :=
  match s with
  | EmptyString => EmptyString
  | String c r => String (f c) (map_chars f r)
  end.

(** [s.upper()] and [s.lower()] *)
Definition upper (s : string) : string := map_chars upper_char s.
Definition lower (s : string) : string := map_chars lower_char s.

(** [os.path.basename(p)] of [posixpath]: what follows the last slash. *)
Definition basename (p : string) : string :=
  List.last (split_char "/"%char p) EmptyString.

(** [content.split('\n')] *)
Definition lines_of (content : string) : list string :=
  split_char newline content.

(** Text of several lines, for the examples. *)
Definition unlines (ls : list string) : string :=
  String.concat (String newline EmptyString) ls.

(** [str(n)] for a length *)
Definition str_of_nat (n : nat) : string :=
  NilZero.string_of_uint (Nat.to_uint n).

End PyStr.

(* ===================================================================== *)
(** * Python numbers: [int(...)], [float(...)], float arithmetic, [repr] *)
(* ===================================================================== *)

Module PyNum.

Import PyStr.
Local Open Scope Z_scope.

(** A Python [float] is an IEEE-754 binary64 value. *)
Definition float : Type := spec_float.
Definition prec : Z := 53.
Definition emax : Z := 1024.

Definition digit_val (c : ascii) : option Z :=
  let n := nat_of_ascii c in
  if (48 <=? n)%nat && (n <=? 57)%nat then Some (Z.of_nat (n - 48)) else None.

Definition is_digit (c : ascii) : bool :=
  match digit_val c with Some _ => true | None => false end.

Definition Z_of_digits (ds : list Z) : Z :=
  fold_left (fun acc d => 10 * acc + d) ds 0.

(** The whitespace [int] and [float] skip at both ends of an ASCII string
    (C's [isspace]): codes 9..13 and 32. *)
Definition is_cspace (c : ascii) : bool :=
  let n := nat_of_ascii c in
  ((9 <=? n)%nat && (n <=? 13)%nat) || (n =? 32)%nat.

(** An optional sign. *)
Definition take_sign (s : string) : bool * string :=
  match s with
  | String c r =>
      if Ascii.eqb c "-" then (true, r)
      else if Ascii.eqb c "+" then (false, r)
      else (false, s)
  | EmptyString => (false, s)
  end.

Fixpoint take_digits (s : string) : list Z * string :=
  match s with
  | EmptyString => ([], EmptyString)
  | String c r =>
      match digit_val c with
      | Some d => let (ds, rest) := take_digits r in (d :: ds, rest)
      | None => ([], s)
      end
  end.

(** ** [int(s)] in base 10 *)

(** Digits with single underscores between them (PEP 515); [prev] tells
    whether the previous character was a digit. *)
Fixpoint int_digits (prev : bool) (s : string) : option (list Z) :=
  match s with
  | EmptyString => if prev then Some [] else None
  | String c r =>
      if Ascii.eqb c "_" then
        if prev then int_digits false r else None
      else
        match digit_val c with
        | Some d => option_map (cons d) (int_digits true r)
        | None => None
        end
  end.

(** [sys.int_info.default_max_str_digits]: a longer decimal numeral is
    refused with [ValueError]. *)
Definition max_str_digits : nat := 4300.

(** [int(s)]: [None] stands for [ValueError]. *)
Definition py_int (s : string) : option Z :=
  let (neg, body) := take_sign (strip_by is_cspace s) in
  match int_digits false body with
  | Some ds =>
      if (List.length ds <=? max_str_digits)%nat
      then Some (if neg then - Z_of_digits ds else Z_of_digits ds)
      else None
  | None => None
  end.

(** ** [float(s)] *)

(** The float nearest to [num / den] (ties to even), [num], [den] > 0. *)
Definition round_ratio (neg : bool) (num den : Z) : float :=
  let '(q, e, l) := SFdiv_core_binary prec emax num 0 den 0 in
  binary_round_aux prec emax neg q e l.

(** The float nearest to [m * 10 ^ k], [m >= 0]. *)
Definition float_of_decimal (neg : bool) (m k : Z) : float :=
  if m =? 0 then S754_zero neg
  else if 0 <=? k then binary_normalize prec emax (cond_Zopp neg (m * 10 ^ k)) 0 false
  else round_ratio neg m (10 ^ (- k)).

(** [float(n)] for an integer that is converted exactly. *)
Definition float_of_Z (n : Z) : float := binary_normalize prec emax n 0 false.

(** An underscore must stand between two digits; they are then dropped. *)
Fixpoint drop_underscores (prev : bool) (s : string) : option string :=
  match s with
  | EmptyString => Some EmptyString
  | String c r =>
      if Ascii.eqb c "_" then
        match r with
        | String c' _ => if prev && is_digit c' then drop_underscores false r else None
        | EmptyString => None
        end
      else option_map (String c) (drop_underscores (is_digit c) r)
  end.

Definition is_exp_char (c : ascii) : bool := Ascii.eqb c "e" || Ascii.eqb c "E".

(** The numeral grammar of [float]: sign, then [inf], [infinity] or [nan]
    in any case, or digits with an optional point and an optional
    exponent; all of the text must be used. *)
Definition parse_float_body (s : string) : option float :=
  let (neg, s1) := take_sign s in
  let w := lower s1 in
  if String.eqb w "inf" || String.eqb w "infinity" then Some (S754_infinity neg)
  else if String.eqb w "nan" then Some S754_nan
  else
    let (ip, s2) := take_digits s1 in
    let (fp, s3) :=
      match s2 with
      | String c r => if Ascii.eqb c "." then take_digits r else ([], s2)
      | EmptyString => ([], s2)
      end in
    match (ip ++ fp)%list with
    | [] => None
    | ds =>
        let m := Z_of_digits ds in
        let nf := Z.of_nat (List.length fp) in
        match s3 with
        | EmptyString => Some (float_of_decimal neg m (- nf))
        | String c r =>
            if is_exp_char c then
              let (eneg, s4) := take_sign r in
              match take_digits s4 with
              | ((_ :: _) as ed, EmptyString) =>
                  Some (float_of_decimal neg m (cond_Zopp eneg (Z_of_digits ed) - nf))
              | _ => None
              end
            else None
        end
    end.

(** [float(s)]: [None] stands for [ValueError]. *)
Definition py_float (s : string) : option float :=
  match drop_underscores false (strip_by is_cspace s) with
  | Some t => parse_float_body t
  | None => None
  end.

(** ** Arithmetic, comparison, truth value *)

Definition fadd (x y : float) : float := SFadd prec emax x y.
Definition fmul (x y : float) : float := SFmul prec emax x y.
Definition fleb (x y : float) : bool := SFleb x y.

(** [bool(x)]: false exactly for the two zeros. *)
Definition float_truthy (x : float) : bool :=
  match x with S754_zero _ => false | _ => true end.

(** ** [repr(x)]: the shortest decimal numeral that reads back as [x] *)

Definition str_of_Z (z : Z) : string := NilZero.string_of_int (Z.to_int z).

Fixpoint zeros (n : nat) : string :=
  match n with
  | O => EmptyString
  | S k => String "0" (zeros k)
  end.

(** [num / den < 10 ^ p] *)
Definition below_pow10 (num den p : Z) : bool :=
  if 0 <=? p then num <? den * 10 ^ p else num * 10 ^ (- p) <? den.

(** The least [p], from [p] upward, with [num / den < 10 ^ p]. *)
Fixpoint find_decpt (fuel : nat) (p num den : Z) : Z :=
  match fuel with
  | O => p
  | S f => if below_pow10 num den p then p else find_decpt f (p + 1) num den
  end.

(** Whether the numeral [c * 10 ^ k] reads back as the float [m * 2 ^ e]. *)
Definition reads_back (m : positive) (e c k : Z) : bool :=
  match float_of_decimal false c k with
  | S754_finite false m' e' => Pos.eqb m' m && (e' =? e)
  | _ => false
  end.

(** With [d] significant digits: the numeral nearest to [x = num / den]
    among those that read back as [x], if there is one.  [p] is the
    position of the decimal point of [x]. *)
Definition candidate (m : positive) (e num den p : Z) (d : Z) : option Z :=
  let k := p - d in
  let yn := if 0 <=? k then num else num * 10 ^ (- k) in
  let yd := if 0 <=? k then den * 10 ^ k else den in
  let lo := yn / yd in
  let r := yn mod yd in
  if r =? 0 then Some lo
  else
    let ok_lo := reads_back m e lo k in
    let ok_hi := reads_back m e (lo + 1) k in
    match ok_lo, ok_hi with
    | true, true =>
        match 2 * r ?= yd with
        | Lt => Some lo
        | Gt => Some (lo + 1)
        | Eq => Some (if Z.even lo then lo else lo + 1)
        end
    | true, false => Some lo
    | false, true => Some (lo + 1)
    | false, false => None
    end.

Fixpoint shortest (fuel : nat) (m : positive) (e num den p d : Z) : Z * Z :=
  match fuel with
  | O => (num / den, d)
  | S f =>
      match candidate m e num den p d with
      | Some c => (c, d)
      | None => shortest f m e num den p (d + 1)
      end
  end.

(** The digits of a positive finite float and the position of its decimal
    point: [x = 0.digits * 10 ^ decpt], no trailing zero. *)
Definition float_digits (m : positive) (e : Z) : string * Z :=
  let num := if 0 <=? e then Zpos m * 2 ^ e else Zpos m in
  let den := if 0 <=? e then 1 else 2 ^ (- e) in
  let p := find_decpt 700 (-330) num den in
  let (c, d) := shortest 17 m e num den p 1 in
  let ds := str_of_Z c in
  (rstrip_by (Ascii.eqb "0") ds, p + (Z.of_nat (String.length ds) - d)).

Definition exp_suffix (x : Z) : string :=
  let a := str_of_Z (Z.abs x) in
  String "e"%char (String (if x <? 0 then "-"%char else "+"%char)
    (if (String.length a <? 2)%nat then String "0"%char a else a)).

Definition float_repr_pos (m : positive) (e : Z) : string :=
  let (ds, decpt) := float_digits m e in
  let n := String.length ds in
  if (16 <? decpt) || (decpt <? -3) then
    (substring 0 1 ds ++
     (if (1 <? n)%nat then String "." (substring 1 (n - 1) ds) else EmptyString) ++
     exp_suffix (decpt - 1))%string
  else if decpt <=? 0 then
    ("0." ++ zeros (Z.to_nat (- decpt)) ++ ds)%string
  else
    let ip := Z.to_nat decpt in
    if (n <=? ip)%nat then (ds ++ zeros (ip - n) ++ ".0")%string
    else (substring 0 ip ds ++ String "." (substring ip (n - ip) ds))%string.

(** [repr(x)], which is also how an f-string prints a float. *)
Definition float_repr (x : float) : string :=
  match x with
  | S754_nan => "nan"
  | S754_infinity s => if s then "-inf" else "inf"
  | S754_zero s => if s then "-0.0" else "0.0"
  | S754_finite s m e =>
      ((if s then "-" else "") ++ float_repr_pos m e)%string
  end.

End PyNum.

(* ===================================================================== *)
(** * The data model: [self.geometry] and [self.files] *)
(* ===================================================================== *)

Module Geometry.

Import PyNum.

(** One row of the blade table and of the tower table. *)
Record BladeStation : Type := mkBladeStation
  { spanFraction : float; pitchAxis : float; twist : float }.

Record TowerStation : Type := mkTowerStation
  { heightFraction : float }.

(** The four sub-dictionaries.  A field is [None] while its key is missing.
    The keys ['length'] and ['stations'] are prefixed with the name of
    their dictionary. *)
Record Config : Type := mkConfig
  { numBlades : option (option Z);
    rotorDiameter : option float;
    hubHeight : option float }.

Record Blades : Type := mkBlades
  { blades_length : option float;
    precone : option (option float);
    blades_stations : option (list BladeStation) }.

Record Tower : Type := mkTower
  { height : option float;
    baseElevation : option float;
    tower_stations : option (list TowerStation) }.

Record Hub : Type := mkHub
  { radius : option (option float);
    overhang : option (option float);
    shaftTilt : option (option float) }.

Record t : Type := mkGeometry
  { config : Config;
    blades : Blades;
    tower : Tower;
    hub : Hub;
    errors : list string;
    warnings : list string;
    filesRead : list string }.

(** The dictionary built by [__init__]. *)
Definition empty : t :=
  {| config := mkConfig None None None;
     blades := mkBlades None None None;
     tower := mkTower None None None;
     hub := mkHub None None None;
     errors := [];
     warnings := [];
     filesRead := [] |}.

(** Assignments [self.geometry[k] = ...] and appends. *)
Definition set_config (c : Config) (g : t) : t :=
  mkGeometry c (blades g) (tower g) (hub g) (errors g) (warnings g) (filesRead g).
Definition set_blades (b : Blades) (g : t) : t :=
  mkGeometry (config g) b (tower g) (hub g) (errors g) (warnings g) (filesRead g).
Definition set_tower (w : Tower) (g : t) : t :=
  mkGeometry (config g) (blades g) w (hub g) (errors g) (warnings g) (filesRead g).
Definition set_hub (h : Hub) (g : t) : t :=
  mkGeometry (config g) (blades g) (tower g) h (errors g) (warnings g) (filesRead g).
Definition add_error (msg : string) (g : t) : t :=
  mkGeometry (config g) (blades g) (tower g) (hub g) (errors g ++ [msg]) (warnings g) (filesRead g).
Definition add_warning (msg : string) (g : t) : t :=
  mkGeometry (config g) (blades g) (tower g) (hub g) (errors g) (warnings g ++ [msg]) (filesRead g).
Definition add_read (label : string) (g : t) : t :=
  mkGeometry (config g) (blades g) (tower g) (hub g) (errors g) (warnings g) (filesRead g ++ [label]).

Definition set_numBlades (v : option Z) (g : t) : t :=
  set_config (mkConfig (Some v) (rotorDiameter (config g)) (hubHeight (config g))) g.
Definition set_rotorDiameter (v : float) (g : t) : t :=
  set_config (mkConfig (numBlades (config g)) (Some v) (hubHeight (config g))) g.
Definition set_hubHeight (v : float) (g : t) : t :=
  set_config (mkConfig (numBlades (config g)) (rotorDiameter (config g)) (Some v)) g.
Definition set_blades_length (v : float) (g : t) : t :=
  set_blades (mkBlades (Some v) (precone (blades g)) (blades_stations (blades g))) g.
Definition set_precone (v : option float) (g : t) : t :=
  set_blades (mkBlades (blades_length (blades g)) (Some v) (blades_stations (blades g))) g.
Definition set_blades_stations (v : list BladeStation) (g : t) : t :=
  set_blades (mkBlades (blades_length (blades g)) (precone (blades g)) (Some v)) g.
Definition set_height (v : float) (g : t) : t :=
  set_tower (mkTower (Some v) (baseElevation (tower g)) (tower_stations (tower g))) g.
Definition set_baseElevation (v : float) (g : t) : t :=
  set_tower (mkTower (height (tower g)) (Some v) (tower_stations (tower g))) g.
Definition set_tower_stations (v : list TowerStation) (g : t) : t :=
  set_tower (mkTower (height (tower g)) (baseElevation (tower g)) (Some v)) g.
Definition set_radius (v : option float) (g : t) : t :=
  set_hub (mkHub (Some v) (overhang (hub g)) (shaftTilt (hub g))) g.
Definition set_overhang (v : option float) (g : t) : t :=
  set_hub (mkHub (radius (hub g)) (Some v) (shaftTilt (hub g))) g.
Definition set_shaftTilt (v : option float) (g : t) : t :=
  set_hub (mkHub (radius (hub g)) (overhang (hub g)) (Some v)) g.

End Geometry.

(** The uploaded files, [self.files]: a dictionary in insertion order. *)
Module FileStore.

Definition t : Type := list (string * string).

(** [name in files] and [files[name]] *)
Fixpoint lookup (name : string) (files : t) : option string :=
  match files with
  | [] => None
  | (k, v) :: rest => if String.eqb k name then Some v else lookup name rest
  end.

(** [files[name] = content]: a known key keeps its place. *)
Fixpoint store (name content : string) (files : t) : t :=
  match files with
  | [] => [(name, content)]
  | (k, v) :: rest =>
      if String.eqb k name then (k, content) :: rest
      else (k, v) :: store name content rest
  end.

End FileStore.

(* ===================================================================== *)
(** * The class [GeometryExtractor] *)
(* ===================================================================== *)

Module Extractor.

Import PyStr PyNum.

Record GeometryExtractor : Type := mkExtractor
  { self_geometry : Geometry.t;
    self_files : FileStore.t }.

(** [__init__] *)
Definition init : GeometryExtractor :=
  {| self_geometry := Geometry.empty; self_files := [] |}.

(** [add_file] *)
Definition add_file (filename content : string) (self : GeometryExtractor)
  : GeometryExtractor :=
  {| self_geometry := self_geometry self;
     self_files := FileStore.store filename content (self_files self) |}.

(** ** [get_file] *)

(** The loop over [self.files.items()]: the first stored name with the
    wanted basename. *)
Fixpoint scan_basename (wanted : string) (files : FileStore.t) : option string :=
  match files with
  | [] => None
  | (uploaded_name, content) :: rest =>
      if String.eqb (basename uploaded_name) wanted then Some content
      else scan_basename wanted rest
  end.

Definition get_file (files : FileStore.t) (filepath : string) : option string :=
  match FileStore.lookup filepath files with
  | Some content => Some content
  | None =>
      match FileStore.lookup (basename filepath) files with
      | Some content => Some content
      | None => scan_basename (basename filepath) files
      end
  end.

(** ** [read_value] *)

Inductive value_type : Type := TStr | TFloat | TInt | TBool.

Definition py_type (ty : value_type) : Type :=
  match ty with
  | TStr => string
  | TFloat => float
  | TInt => Z
  | TBool => bool
  end.

(** The delimiters of the pattern [[!\-]]. *)
Definition is_delim (c : ascii) : bool := Ascii.eqb c "!" || Ascii.eqb c "-".

(** The coercion at the end of [read_value]; [None] when [float] or [int]
    raises, which the bare [except] turns into [None]. *)
Definition coerce (ty : value_type) (value : string) : option (py_type ty) :=
  match ty return option (py_type ty) with
  | TFloat => py_float value
  | TInt => py_int value
  | TBool =>
      let v := lower value in
      Some (String.eqb v "true" || String.eqb v "t" ||
            String.eqb v "yes" || String.eqb v "1")
  | TStr => Some value
  end.

Definition read_value (line : string) (ty : value_type) : option (py_type ty) :=
  let parts := split_by is_delim (strip line) in
  let part0 := strip (hd EmptyString parts) in
  if negb (truthy part0) then None
  else
    match split_ws part0 with
    | [] => None
    | value :: _ =>
        let value := strip_chars (String squote EmptyString)
                       (strip_chars (String dquote EmptyString) value) in
        coerce ty value
    end.

(** [self.get_file(name) if name else None] *)
Definition resolve (files : FileStore.t) (name : option string) : option string :=
  match name with
  | Some f => if truthy f then get_file files f else None
  | None => None
  end.

(** The test [if content:] on a resolved file: present and not empty. *)
Definition usable (content : option string) : option string :=
  match content with
  | Some c => if truthy c then Some c else None
  | None => None
  end.

(** The test [if name:] on a name that was read. *)
Definition named (name : option string) : option string :=
  match name with
  | Some f => if truthy f then Some f else None
  | None => None
  end.

(** ** The two table parsers *)

(** [line.strip() and not line.strip().startswith('!') and not
    line.strip().startswith('---')] *)
Definition is_row (line : string) : bool :=
  truthy (strip line) && negb (startswith "!" (strip line))
  && negb (startswith "---" (strip line)).

(** [if '!' in line: line = line.split('!')[0]] *)
Definition drop_comment (line : string) : string :=
  if contains "!" line then hd EmptyString (split_char "!" line) else line.

(** The station of a row of at least three tokens; [None] when one of the
    three [float] calls raises [ValueError]. *)
Definition blade_station (parts : list string) : option Geometry.BladeStation :=
  match parts with
  | p0 :: p1 :: p2 :: _ =>
      match py_float p0, py_float p1, py_float p2 with
      | Some a, Some b, Some c => Some (Geometry.mkBladeStation a b c)
      | _, _, _ => None
      end
  | _ => None
  end.

(** The [for] loop of [parse_blade_file]. *)
Fixpoint blade_rows (lines : list string) (in_table : bool)
    (stations : list Geometry.BladeStation) : list Geometry.BladeStation :=
  match lines with
  | [] => stations
  | line :: rest =>
      if contains "BLFRACT" (upper line) then blade_rows rest true stations
      else if in_table && is_row line then
        let parts := split_ws (drop_comment line) in
        if (3 <=? List.length parts)%nat then
          match blade_station parts with
          | Some station => blade_rows rest in_table (stations ++ [station])
          | None => blade_rows rest in_table stations
          end
        else blade_rows rest in_table stations
      else blade_rows rest in_table stations
  end.

Definition parse_blade_file (content : string) (g : Geometry.t) : bool * Geometry.t :=
  let stations := blade_rows (lines_of content) false [] in
  match stations with
  | [] => (true, g)
  | _ :: _ =>
      (true,
       Geometry.add_warning
         ("Parsed " ++ str_of_nat (List.length stations) ++ " blade stations")
         (Geometry.add_read "Blade properties"
            (Geometry.set_blades_stations stations g)))
  end.

(** [0 <= height_frac <= 1] *)
Definition in_unit_interval (x : float) : bool :=
  fleb (float_of_Z 0) x && fleb x (float_of_Z 1).

(** The [for] loop of [parse_tower_file]; returning [stations] before the
    end of [lines] is the [break]. *)
Fixpoint tower_rows (lines : list string) (in_table : bool)
    (stations : list Geometry.TowerStation) : list Geometry.TowerStation :=
  match lines with
  | [] => stations
  | line :: rest =>
      if in_table && startswith "---" (strip line) then stations
      else if contains "HTFRACT" (upper line) then tower_rows rest true stations
      else if in_table && is_row line then
        match split_ws (drop_comment line) with
        | [] => tower_rows rest in_table stations
        | p0 :: _ =>
            match py_float p0 with
            | Some height_frac =>
                if in_unit_interval height_frac then
                  tower_rows rest in_table
                    (stations ++ [Geometry.mkTowerStation height_frac])
                else stations
            | None => if in_table then stations else tower_rows rest in_table stations
            end
        end
      else tower_rows rest in_table stations
  end.

Definition parse_tower_file (content : string) (g : Geometry.t) : bool * Geometry.t :=
  let stations := tower_rows (lines_of content) false [] in
  match stations with
  | [] => (true, g)
  | _ :: _ =>
      (true,
       Geometry.add_warning
         ("Parsed " ++ str_of_nat (List.length stations) ++ " tower stations")
         (Geometry.add_read "Tower properties"
            (Geometry.set_tower_stations stations g)))
  end.

(** ** [parse_aerodyn_file] *)

Definition parse_aerodyn_file (content : string) (g : Geometry.t) : bool * Geometry.t :=
  (true, Geometry.add_read "AeroDyn" g).

(** ** [parse_elastodyn_file] *)

(** The branch of the [if]/[elif] chain that a line takes. *)
Inductive keyword : Type :=
  | NumBl | TipRad | HubRad | PreCone | OverHang | ShftTilt
  | TowerHt | TowerBsHt | Twr2Shft | BldFile | TwrFile | NoKeyword.

(** The conditions of the chain, in its order. *)
Definition classify (line : string) : keyword :=
  if contains "NumBl" line then NumBl
  else if contains "TipRad" line then TipRad
  else if contains "HubRad" line then HubRad
  else if contains "PreCone" line then PreCone
  else if contains "OverHang" line then OverHang
  else if contains "ShftTilt" line then ShftTilt
  else if contains "TowerHt" line && negb (contains "TowerBsHt" line) then TowerHt
  else if contains "TowerBsHt" line then TowerBsHt
  else if contains "Twr2Shft" line then Twr2Shft
  else if contains "BldFile" line then BldFile
  else if contains "TwrFile" line then TwrFile
  else NoKeyword.

(** The geometry and the three local variables of the loop. *)
Record ed_state : Type := mkEd
  { ed_geometry : Geometry.t;
    tower_ht : option float;
    twr2shft : option float;
    tower_bs_ht : option float }.

Definition ed_with (g : Geometry.t) (st : ed_state) : ed_state :=
  mkEd g (tower_ht st) (twr2shft st) (tower_bs_ht st).

(** The bodies of the chain: one iteration of the [while] loop on
    [lines[i]]. *)
Definition ed_step (files : FileStore.t) (raw : string) (st : ed_state) : ed_state :=
  let line := strip raw in
  let g := ed_geometry st in
  match classify line with
  | NumBl => ed_with (Geometry.set_numBlades (read_value line TInt) g) st
  | TipRad =>
      match read_value line TFloat with
      | Some tip_rad =>
          if float_truthy tip_rad then
            ed_with (Geometry.set_blades_length tip_rad
                       (Geometry.set_rotorDiameter (fmul tip_rad (float_of_Z 2)) g)) st
          else st
      | None => st
      end
  | HubRad => ed_with (Geometry.set_radius (read_value line TFloat) g) st
  | PreCone => ed_with (Geometry.set_precone (read_value line TFloat) g) st
  | OverHang => ed_with (Geometry.set_overhang (read_value line TFloat) g) st
  | ShftTilt => ed_with (Geometry.set_shaftTilt (read_value line TFloat) g) st
  | TowerHt =>
      let v := read_value line TFloat in
      let g' :=
        match v with
        | Some x => if float_truthy x then Geometry.set_height x g else g
        | None => g
        end in
      mkEd g' v (twr2shft st) (tower_bs_ht st)
  | TowerBsHt =>
      let v := read_value line TFloat in
      let g' :=
        match v with
        | Some x => Geometry.set_baseElevation x g
        | None => g
        end in
      mkEd g' (tower_ht st) (twr2shft st) v
  | Twr2Shft =>
      mkEd g (tower_ht st) (read_value line TFloat) (tower_bs_ht st)
  | BldFile =>
      match usable (resolve files (read_value line TStr)) with
      | Some blade_content => ed_with (snd (parse_blade_file blade_content g)) st
      | None => st
      end
  | TwrFile =>
      match usable (resolve files (read_value line TStr)) with
      | Some tower_content => ed_with (snd (parse_tower_file tower_content g)) st
      | None => st
      end
  | NoKeyword => st
  end.

Definition ed_loop (files : FileStore.t) (lines : list string) (st : ed_state)
  : ed_state :=
  fold_left (fun acc line => ed_step files line acc) lines st.

(** [twr2shft or 0] inside the f-string. *)
Definition offset_text (twr2shft : option float) : string :=
  match twr2shft with
  | Some x => if float_truthy x then float_repr x else "0"
  | None => "0"
  end.

Definition hub_height_message (hub_height tower_ht : float)
    (twr2shft : option float) : string :=
  "Hub height calculated: " ++ float_repr hub_height ++ "m (TowerHt="
  ++ float_repr tower_ht ++ " + Twr2Shft=" ++ offset_text twr2shft ++ ")".

(** What follows the loop: the hub height and its message. *)
Definition ed_finish (st : ed_state) : Geometry.t :=
  let g := ed_geometry st in
  let g' :=
    match tower_ht st with
    | Some ht =>
        let hub_height :=
          match twr2shft st with
          | Some off => fadd ht off
          | None => ht
          end in
        Geometry.add_warning (hub_height_message hub_height ht (twr2shft st))
          (Geometry.set_hubHeight hub_height g)
    | None => g
    end in
  Geometry.add_read "ElastoDyn" g'.

Definition parse_elastodyn_file (files : FileStore.t) (content : string)
    (g : Geometry.t) : bool * Geometry.t :=
  (true, ed_finish (ed_loop files (lines_of content) (mkEd g None None None))).

(** ** [parse_main_file] *)

Record main_state : Type := mkMain
  { main_geometry : Geometry.t;
    found_ed : bool;
    found_aero : bool }.

(** [not line_stripped or line_stripped.startswith('!') or
    line_stripped.startswith('---')] *)
Definition is_skipped (line : string) : bool :=
  negb (truthy (strip line)) || startswith "!" (strip line)
  || startswith "---" (strip line).

Definition is_ed_reference (line : string) : bool :=
  contains "EDFile" line || contains "ElastoDyn input file" line.

Definition is_aero_reference (line : string) : bool :=
  contains "AeroFile" line || contains "AeroDyn input file" line.

(** One iteration of the [for] loop. *)
Definition main_step (files : FileStore.t) (line : string) (st : main_state)
  : main_state :=
  if is_skipped line then st
  else if is_ed_reference line then
    let ed_file := read_value line TStr in
    match usable (resolve files ed_file) with
    | Some ed_content =>
        mkMain (snd (parse_elastodyn_file files ed_content (main_geometry st)))
          true (found_aero st)
    | None =>
        match named ed_file with
        | Some f =>
            mkMain (Geometry.add_warning ("EDFile '" ++ f ++ "' not found")
                      (main_geometry st))
              (found_ed st) (found_aero st)
        | None => st
        end
    end
  else if is_aero_reference line then
    let aero_file := read_value line TStr in
    match usable (resolve files aero_file) with
    | Some aero_content =>
        mkMain (snd (parse_aerodyn_file aero_content (main_geometry st)))
          (found_ed st) true
    | None => st
    end
  else st.

Definition main_loop (files : FileStore.t) (lines : list string) (st : main_state)
  : main_state :=
  fold_left (fun acc line => main_step files line acc) lines st.

Definition parse_main_file (files : FileStore.t) (content : string)
    (g : Geometry.t) : bool * Geometry.t :=
  let st := main_loop files (lines_of content) (mkMain g false false) in
  let g1 :=
    if found_ed st then main_geometry st
    else Geometry.add_warning
           "No ElastoDyn file reference found or file not uploaded"
           (main_geometry st) in
  (true, Geometry.add_read "main.fst" g1).

(** ** [extract_geometry] *)

(** What [json.dumps] serialises: the record itself stands for its text. *)
Record result : Type := mkResult
  { success : bool;
    geometry : Geometry.t }.

(** The loop that looks for the main file: the content of the first stored
    name that ends with [.fst]. *)
Fixpoint find_main (files : FileStore.t) : option string :=
  match files with
  | [] => None
  | (filename, content) :: rest =>
      if endswith ".fst" filename then Some content else find_main rest
  end.

(** [len(self.geometry['errors']) == 0] *)
Definition no_errors (g : Geometry.t) : bool :=
  match Geometry.errors g with [] => true | _ :: _ => false end.

Definition extract_geometry (self : GeometryExtractor) : result :=
  match usable (find_main (self_files self)) with
  | None =>
      {| success := false;
         geometry := Geometry.add_error "No .fst file found" (self_geometry self) |}
  | Some main_file =>
      let (ok, g) := parse_main_file (self_files self) main_file (self_geometry self) in
      {| success := ok && no_errors g; geometry := g |}
  end.

(** [extract_openfast_geometry]: the entry point; [files_dict] is the
    sequence of its items. *)
Definition extract_openfast_geometry (files_dict : list (string * string)) : result :=
  extract_geometry
    (fold_left (fun extractor kv => add_file (fst kv) (snd kv) extractor)
       files_dict init).

End Extractor.

(* ===================================================================== *)
(** * The specification's notions, stated independently of the code *)
(* ===================================================================== *)

Module Spec.

Import PyStr PyNum Extractor.

(** ** File store (section 4.1) *)

(** The content of the first stored entry whose name satisfies [p]. *)
Definition first_content (p : string -> bool) (files : FileStore.t) : option string :=
  option_map snd (find (fun kv => p (fst kv)) files).

(** Rule (a): exact key match. *)
Definition rule_exact (files : FileStore.t) (name : string) : option string :=
  first_content (fun k => String.eqb k name) files.

(** Rule (b): the final path segment of the request against the stored keys. *)
Definition rule_segment (files : FileStore.t) (name : string) : option string :=
  first_content (fun k => String.eqb k (basename name)) files.

(** Rule (c): the final path segment of the request against the final path
    segment of every stored key. *)
Definition rule_segments (files : FileStore.t) (name : string) : option string :=
  first_content (fun k => String.eqb (basename k) (basename name)) files.

(** First match wins; no match is absent. *)
Fixpoint first_match (rules : list (option string)) : option string :=
  match rules with
  | [] => None
  | Some c :: _ => Some c
  | None :: rest => first_match rest
  end.

Definition resolve_spec (files : FileStore.t) (name : string) : option string :=
  first_match [rule_exact files name; rule_segment files name; rule_segments files name].

(** No stored key matches the request under any of the three rules. *)
Definition no_key_matches (files : FileStore.t) (name : string) : Prop :=
  forall k c, In (k, c) files ->
    k <> name /\ k <> basename name /\ basename k <> basename name.

(** ** Aggregator (section 4.8) *)

(** No stored name ends with the main-file extension. *)
Definition no_fst (files : FileStore.t) : bool :=
  forallb (fun kv => negb (endswith ".fst" (fst kv))) files.

(** [(name, content)] is the first stored file whose name ends with the
    main-file extension. *)
Definition first_fst (files : FileStore.t) (name content : string) : Prop :=
  exists before after,
    files = (before ++ (name, content) :: after)%list
    /\ no_fst before = true /\ endswith ".fst" name = true.

(** The result when no main file is found. *)
Definition not_found (g : Geometry.t) : result :=
  {| success := false; geometry := Geometry.add_error "No .fst file found" g |}.

(** The result after the main file [content] was parsed. *)
Definition parsed (files : FileStore.t) (content : string) (g : Geometry.t) : result :=
  {| success := fst (parse_main_file files content g)
                && no_errors (snd (parse_main_file files content g));
     geometry := snd (parse_main_file files content g) |}.

(** The accumulator with its warnings replaced. *)
Definition with_warnings (w : list string) (g : Geometry.t) : Geometry.t :=
  Geometry.mkGeometry (Geometry.config g) (Geometry.blades g) (Geometry.tower g)
    (Geometry.hub g) (Geometry.errors g) w (Geometry.filesRead g).

(** ** Structural file (section 4.4) *)

Definition keyword_eqb (a b : keyword) : bool :=
  match a, b with
  | NumBl, NumBl | TipRad, TipRad | HubRad, HubRad | PreCone, PreCone
  | OverHang, OverHang | ShftTilt, ShftTilt | TowerHt, TowerHt
  | TowerBsHt, TowerBsHt | Twr2Shft, Twr2Shft | BldFile, BldFile
  | TwrFile, TwrFile | NoKeyword, NoKeyword => true
  | _, _ => false
  end.

(** The lines of a keyword, in encounter order, and what the reader
    returns on each of them. *)
Definition lines_for (k : keyword) (lines : list string) : list string :=
  filter (fun raw => keyword_eqb (classify (strip raw)) k) lines.

Definition reads (k : keyword) (ty : value_type) (lines : list string)
  : list (option (py_type ty)) :=
  map (fun raw => read_value (strip raw) ty) (lines_for k lines).

(** The values that were read successfully. *)
Fixpoint successes {A : Type} (l : list (option A)) : list A :=
  match l with
  | [] => []
  | Some x :: rest => x :: successes rest
  | None :: rest => successes rest
  end.

Definition last_of {A : Type} (l : list A) : option A :=
  match rev l with
  | [] => None
  | x :: _ => Some x
  end.

(** A field after a sequence of writes: the last write, or the old
    content when nothing was written. *)
Definition overwritten {A : Type} (old : option A) (writes : list A) : option A :=
  match last_of writes with
  | Some v => Some v
  | None => old
  end.

(** The non-zero values among those read successfully. *)
Definition nonzero_reads (k : keyword) (lines : list string) : list float :=
  filter float_truthy (successes (reads k TFloat lines)).

(** The hub height the file determines: the value of the last tower-height
    line, when it was read, plus that of the last offset line, when it was
    read. *)
Definition derived_hub_height (lines : list string) : option float :=
  match last_of (reads TowerHt TFloat lines) with
  | Some (Some ht) =>
      Some match last_of (reads Twr2Shft TFloat lines) with
           | Some (Some off) => fadd ht off
           | _ => ht
           end
  | _ => None
  end.

(** What one line writes into a field fed by keyword [k]: [h] applied to
    what the reader returns, when the line takes the branch of [k]. *)
Definition line_write {A : Type} (k : keyword) (ty : value_type)
    (h : option (py_type ty) -> option A) (raw : string) : option A :=
  if keyword_eqb (classify (strip raw)) k then h (read_value (strip raw) ty)
  else None.

(** The guards of the branches: [if tip_rad:] and [if tower_ht:]. *)
Definition if_nonzero (v : option float) : option float :=
  match v with
  | Some x => if float_truthy x then Some x else None
  | None => None
  end.

Definition twice (x : float) : float := fmul x (float_of_Z 2).
(** ** Reference lines (sections 4.2 to 4.4) *)

Fixpoint all_chars (p : ascii -> bool) (s : string) : bool :=
  match s with
  | EmptyString => true
  | String c r => p c && all_chars p r
  end.

Definition is_quote (c : ascii) : bool := Ascii.eqb c dquote || Ascii.eqb c squote.

(** A character of a file name that the reader keeps: not whitespace, not
    one of the two delimiters, not a quote. *)
Definition plain_char (c : ascii) : bool :=
  negb (is_space c) && negb (is_delim c) && negb (is_quote c).

(** An opening quote, or none. *)
Definition opening (q : string) : Prop :=
  q = EmptyString \/ q = String dquote EmptyString \/ q = String squote EmptyString.

(** A line that starts, after blanks [ws] and an opening quote [q], with a
    name whose first delimiter [c] comes after the plain characters [pre]. *)
Definition reference_line (ws q pre : string) (c : ascii) (tail : string) : string :=
  ws ++ q ++ pre ++ String c tail.

End Spec.

(** The inputs and values of the specification's examples. *)
Module Examples.

Import PyStr PyNum Extractor.

Definition f0 : float := float_of_Z 0.
Definition f1 : float := float_of_Z 1.
Definition f5 : float := float_of_Z 5.
Definition f50 : float := float_of_Z 50.
Definition f80 : float := float_of_Z 80.
Definition f85 : float := float_of_Z 85.
Definition f100 : float := float_of_Z 100.
Definition f_half : float := float_of_decimal false 5 (-1).
Definition f_minus2 : float := float_of_Z (-2).

Definition tower_header : string := "HtFract  TMassDen  TwFAStif  TwSSStif".
Definition blade_header : string := "BlFract  PitchAxis  StrcTwst  BMassDen  FlpStff  EdgStff".
End Examples.

(* ===================================================================== *)
(** * Further notions: what the code keeps, beyond the specification *)
(* ===================================================================== *)

Module Notions.

Import PyStr PyNum Extractor Spec.

(** ** The reader *)

(** A character that can occur in what the reader returns. *)
Definition token_char (c : ascii) : bool := negb (is_space c) && negb (is_delim c).

(** The sign bit of a float that is not a NaN. *)
Definition is_negative (x : float) : bool :=
  match x with
  | S754_zero s | S754_infinity s | S754_finite s _ _ => s
  | S754_nan => false
  end.

(** The first character that is not a blank is one of the delimiters. *)
Definition starts_with_delim (line : string) : bool :=
  match strip line with
  | String c _ => is_delim c
  | EmptyString => false
  end.

(** ** The tables, line by line *)

Definition is_blade_header (line : string) : bool := contains "BLFRACT" (upper line).
Definition is_tower_header (line : string) : bool := contains "HTFRACT" (upper line).

(** The lines that follow the first header line. *)
Fixpoint after_header (is_header : string -> bool) (lines : list string) : list string :=
  match lines with
  | [] => []
  | line :: rest => if is_header line then rest else after_header is_header rest
  end.

(** The station a line of the blade table contributes, if any. *)
Definition blade_row (line : string) : list Geometry.BladeStation :=
  if is_blade_header line then []
  else if is_row line then
    match blade_station (split_ws (drop_comment line)) with
    | Some station => [station]
    | None => []
    end
  else [].

(** The first token of a row of the tower table, as a float. *)
Definition tower_value (line : string) : option (option float) :=
  if is_tower_header line then None
  else if is_row line then
    match split_ws (drop_comment line) with
    | p0 :: _ => Some (py_float p0)
    | [] => None
    end
  else None.

(** The lines at which the tower table ends: a separator, or a row whose
    first token is not a float of the unit interval. *)
Definition tower_stop (line : string) : bool :=
  startswith "---" (strip line)
  || match tower_value line with
     | Some (Some h) => negb (in_unit_interval h)
     | Some None => true
     | None => false
     end.

(** The station a line of the tower table contributes, if any. *)
Definition tower_row (line : string) : list Geometry.TowerStation :=
  match tower_value line with
  | Some (Some h) => if in_unit_interval h then [Geometry.mkTowerStation h] else []
  | _ => []
  end.

(** The lines before the first one that satisfies [stop]. *)
Fixpoint until (stop : string -> bool) (lines : list string) : list string :=
  match lines with
  | [] => []
  | line :: rest => if stop line then [] else line :: until stop rest
  end.

(** The stations a blade file and a tower file hold. *)
Definition blade_table (content : string) : list Geometry.BladeStation :=
  flat_map blade_row (after_header is_blade_header (lines_of content)).

Definition tower_table (content : string) : list Geometry.TowerStation :=
  flat_map tower_row (until tower_stop (after_header is_tower_header (lines_of content))).

(** ** Invariants of the result *)

(** Stored station lists are not empty, and tower stations lie in the unit
    interval. *)
Definition good_stations (g : Geometry.t) : Prop :=
  (forall l, Geometry.blades_stations (Geometry.blades g) = Some l -> l <> [])
  /\ (forall l, Geometry.tower_stations (Geometry.tower g) = Some l ->
        l <> []
        /\ Forall (fun s => in_unit_interval (Geometry.heightFraction s) = true) l).

(** The rotor diameter is twice the blade length, both present or both
    missing. *)
Definition diameter_is_twice_length (g : Geometry.t) : Prop :=
  Geometry.rotorDiameter (Geometry.config g)
  = option_map twice (Geometry.blades_length (Geometry.blades g)).

(** The labels of [filesRead]. *)
Definition labels : list string :=
  ["main.fst"; "ElastoDyn"; "Blade properties"; "Tower properties"; "AeroDyn"].

(** The warning that ends a main file without a resolved structural
    reference. *)
Definition no_ed_warning : string :=
  "No ElastoDyn file reference found or file not uploaded".

(** The forms of a warning recorded while the lines are scanned. *)
Inductive loop_warning : string -> Prop :=
  | warn_ed_missing f : loop_warning ("EDFile '" ++ f ++ "' not found")
  | warn_hub h ht off : loop_warning (hub_height_message h ht off)
  | warn_blades n :
      loop_warning ("Parsed " ++ str_of_nat n ++ " blade stations")
  | warn_towers n :
      loop_warning ("Parsed " ++ str_of_nat n ++ " tower stations").

(** The forms of a warning. *)
Definition known_warning (w : string) : Prop :=
  loop_warning w \/ w = no_ed_warning.

(** What the accumulator gains in a run: no error, appended warnings of
    the forms [allowed], appended labels. *)
Definition grows (allowed : string -> Prop) (g g' : Geometry.t) : Prop :=
  Geometry.errors g' = Geometry.errors g
  /\ (exists w, Geometry.warnings g' = (Geometry.warnings g ++ w)%list
                /\ Forall allowed w)
  /\ (exists f, Geometry.filesRead g' = (Geometry.filesRead g ++ f)%list
                /\ Forall (fun l => In l labels) f).

(** ** References of the structural and of the main file *)

(** The stations a line of the structural file stores, if any. *)
Definition blade_write (files : FileStore.t) (raw : string)
  : option (list Geometry.BladeStation) :=
  if keyword_eqb (classify (strip raw)) BldFile then
    match usable (resolve files (read_value (strip raw) TStr)) with
    | Some content =>
        match blade_rows (lines_of content) false [] with
        | [] => None
        | station :: more => Some (station :: more)
        end
    | None => None
    end
  else None.

Definition tower_write (files : FileStore.t) (raw : string)
  : option (list Geometry.TowerStation) :=
  if keyword_eqb (classify (strip raw)) TwrFile then
    match usable (resolve files (read_value (strip raw) TStr)) with
    | Some content =>
        match tower_rows (lines_of content) false [] with
        | [] => None
        | station :: more => Some (station :: more)
        end
    | None => None
    end
  else None.

(** A line of the main file that names a structural file which resolves. *)
Definition resolves_ed (files : FileStore.t) (line : string) : bool :=
  negb (is_skipped line) && is_ed_reference line
  && match usable (resolve files (read_value line TStr)) with
     | Some _ => true
     | None => false
     end.

End Notions.

(* ===================================================================== *)
(** * Facts about the string primitives and the line-value reader *)
(* ===================================================================== *)

Module StrFacts.
Import PyStr Spec.

Lemma append_assoc' (a b c : string) : (a ++ b) ++ c = a ++ (b ++ c).
Proof. induction a as [|x a IH]; simpl; [reflexivity | now rewrite IH]. Qed.

Lemma all_chars_app p a b :
  all_chars p (a ++ b) = all_chars p a && all_chars p b.
Proof.
  induction a as [|x a IH]; simpl; [reflexivity|].
  now rewrite IH, andb_assoc.
Qed.

Lemma all_chars_weaken (p q : ascii -> bool) s :
  (forall c, p c = true -> q c = true) ->
  all_chars p s = true -> all_chars q s = true.
Proof.
  intros Hpq. induction s as [|x s IH]; simpl; [reflexivity|].
  intros H. apply andb_true_iff in H as [Hx Hs].
  now rewrite (Hpq _ Hx), IH.
Qed.

(** [lstrip] removes a run of strippable characters in front of a
    character that stays. *)
Lemma lstrip_by_run p ws c s :
  all_chars p ws = true -> p c = false ->
  lstrip_by p (ws ++ String c s) = String c s.
Proof.
  intros Hws Hc. induction ws as [|x ws IH]; simpl in *.
  - now rewrite Hc.
  - apply andb_true_iff in Hws as [Hx Hws]. rewrite Hx. now apply IH.
Qed.

Lemma rstrip_by_keep p c s :
  p c = false -> rstrip_by p (String c s) = String c (rstrip_by p s).
Proof.
  intros Hc. simpl. destruct (rstrip_by p s); [now rewrite Hc | reflexivity].
Qed.

Lemma rstrip_by_keep_app p a s :
  all_chars (fun c => negb (p c)) a = true ->
  rstrip_by p (a ++ s) = a ++ rstrip_by p s.
Proof.
  intros Ha. induction a as [|x a IH].
  - reflexivity.
  - simpl in Ha. apply andb_true_iff in Ha as [Hx Ha].
    apply negb_true_iff in Hx.
    change (String x a ++ s) with (String x (a ++ s)).
    rewrite rstrip_by_keep by exact Hx. now rewrite IH.
Qed.

Lemma rstrip_by_none p s :
  all_chars (fun c => negb (p c)) s = true -> rstrip_by p s = s.
Proof.
  intros H. induction s as [|x s IH]; [reflexivity|].
  simpl in H. apply andb_true_iff in H as [Hx Hs]. apply negb_true_iff in Hx.
  rewrite rstrip_by_keep by exact Hx. now rewrite IH.
Qed.

Lemma lstrip_by_none p s :
  all_chars (fun c => negb (p c)) s = true -> lstrip_by p s = s.
Proof.
  destruct s as [|x s]; [reflexivity|]. simpl.
  intros H. apply andb_true_iff in H as [Hx _]. apply negb_true_iff in Hx.
  now rewrite Hx.
Qed.

Lemma strip_by_none p s :
  all_chars (fun c => negb (p c)) s = true -> strip_by p s = s.
Proof.
  intros H. unfold strip_by. now rewrite lstrip_by_none, rstrip_by_none.
Qed.

(** [split_by] cuts at the first delimiter. *)
Lemma split_by_first p a c s :
  all_chars (fun x => negb (p x)) a = true -> p c = true ->
  split_by p (a ++ String c s) = a :: split_by p s.
Proof.
  intros Ha Hc. induction a as [|x a IH]; simpl in *.
  - now rewrite Hc.
  - apply andb_true_iff in Ha as [Hx Ha]. apply negb_true_iff in Hx.
    now rewrite Hx, IH.
Qed.

(** A word without whitespace is its own only token. *)
Lemma split_ws_word c s :
  all_chars (fun x => negb (is_space x)) (String c s) = true ->
  split_ws (String c s) = [String c s].
Proof.
  revert c. induction s as [|y s IH]; intros c H; simpl in H.
  - apply andb_true_iff in H as [Hc _]. apply negb_true_iff in Hc.
    simpl. now rewrite Hc.
  - apply andb_true_iff in H as [Hc H]. apply negb_true_iff in Hc.
    assert (Hy : is_space y = false).
    { apply andb_true_iff in H as [Hy _]. now apply negb_true_iff in Hy. }
    change (split_ws (String c (String y s))) with
      (if is_space c then split_ws (String y s)
       else if is_space y then String c EmptyString :: split_ws (String y s)
       else match split_ws (String y s) with
            | h :: t => String c h :: t
            | [] => [String c EmptyString]
            end).
    rewrite Hc, Hy, (IH y); [reflexivity|]. simpl. exact H.
Qed.

(** [strip()] twice is [strip()] once. *)
Lemma lstrip_by_idem p s : lstrip_by p (lstrip_by p s) = lstrip_by p s.
Proof.
  induction s as [|x s IH]; [reflexivity|]. simpl.
  destruct (p x) eqn:Hx; [exact IH|]. simpl. now rewrite Hx.
Qed.

Lemma rstrip_by_idem p s : rstrip_by p (rstrip_by p s) = rstrip_by p s.
Proof.
  induction s as [|x s IH]; [reflexivity|]. simpl.
  destruct (rstrip_by p s) as [|y r] eqn:E.
  - destruct (p x) eqn:Hx; [reflexivity|]. simpl. now rewrite Hx.
  - change (rstrip_by p (String x (String y r))) with
      (match rstrip_by p (String y r) with
       | EmptyString => if p x then EmptyString else String x EmptyString
       | String _ _ as r' => String x r'
       end).
    rewrite IH. reflexivity.
Qed.

(** Stripping on the right keeps the head of a string that starts with a
    character that stays. *)
Lemma lstrip_rstrip_comm p s :
  lstrip_by p (rstrip_by p s) = rstrip_by p (lstrip_by p s).
Proof.
  induction s as [|x s IH]; [reflexivity|].
  destruct (p x) eqn:Hx.
  - change (lstrip_by p (String x s)) with (if p x then lstrip_by p s else String x s).
    rewrite Hx, <- IH. simpl.
    destruct (rstrip_by p s) as [|y r]; simpl; now rewrite Hx.
  - change (lstrip_by p (String x s)) with (if p x then lstrip_by p s else String x s).
    rewrite Hx, rstrip_by_keep by exact Hx. simpl. now rewrite Hx.
Qed.

Lemma strip_by_idem p s : strip_by p (strip_by p s) = strip_by p s.
Proof.
  unfold strip_by.
  rewrite (lstrip_rstrip_comm p (lstrip_by p s)), lstrip_by_idem.
  apply rstrip_by_idem.
Qed.

End StrFacts.

Module ReadFacts.
Import PyStr PyNum Extractor Spec StrFacts.

Lemma read_value_strip raw ty : read_value (strip raw) ty = read_value raw ty.
Proof. unfold read_value, strip. now rewrite strip_by_idem. Qed.

Lemma resolve_named files name : resolve files name = resolve files (named name).
Proof.
  destruct name as [f|]; [|reflexivity]. simpl.
  destruct (truthy f) eqn:E; [|reflexivity]. simpl. now rewrite E.
Qed.

Lemma named_named name : named (named name) = named name.
Proof.
  destruct name as [f|]; [|reflexivity]. simpl.
  destruct (truthy f) eqn:E; [|reflexivity]. simpl. now rewrite E.
Qed.

Lemma delim_not_space c : is_delim c = true -> is_space c = false.
Proof.
  unfold is_delim. intros H. apply orb_true_iff in H as [H|H];
    apply Ascii.eqb_eq in H; subst c; reflexivity.
Qed.

Lemma plain_not_space s :
  all_chars plain_char s = true -> all_chars (fun c => negb (is_space c)) s = true.
Proof.
  apply all_chars_weaken. unfold plain_char. intros c H.
  apply andb_true_iff in H as [H _]. now apply andb_true_iff in H as [H _].
Qed.

Lemma plain_not_delim s :
  all_chars plain_char s = true -> all_chars (fun c => negb (is_delim c)) s = true.
Proof.
  apply all_chars_weaken. unfold plain_char. intros c H.
  apply andb_true_iff in H as [H _]. now apply andb_true_iff in H as [_ H].
Qed.

Lemma plain_not_dquote s :
  all_chars plain_char s = true ->
  all_chars (fun c => negb (mem_char c (String dquote EmptyString))) s = true.
Proof.
  apply all_chars_weaken. unfold plain_char, is_quote. intros c H.
  apply andb_true_iff in H as [_ H]. simpl. rewrite orb_false_r.
  apply negb_true_iff in H. apply orb_false_iff in H as [H _]. now rewrite H.
Qed.

Lemma plain_not_squote s :
  all_chars plain_char s = true ->
  all_chars (fun c => negb (mem_char c (String squote EmptyString))) s = true.
Proof.
  apply all_chars_weaken. unfold plain_char, is_quote. intros c H.
  apply andb_true_iff in H as [_ H]. simpl. rewrite orb_false_r.
  apply negb_true_iff in H. apply orb_false_iff in H as [_ H]. now rewrite H.
Qed.

(** The two quote strippings of [read_value] on an opening quote followed
    by plain characters. *)
Lemma unquote_opening q pre :
  opening q -> all_chars plain_char pre = true ->
  strip_chars (String squote EmptyString)
    (strip_chars (String dquote EmptyString) (q ++ pre)) = pre.
Proof.
  intros Hq Hpre.
  pose proof (plain_not_dquote _ Hpre) as Hd.
  pose proof (plain_not_squote _ Hpre) as Hs.
  unfold strip_chars.
  destruct Hq as [-> | [-> | ->]]; simpl append.
  - rewrite (strip_by_none _ pre) by exact Hd. apply strip_by_none. exact Hs.
  - unfold strip_by at 2. simpl lstrip_by.
    rewrite lstrip_by_none, rstrip_by_none by exact Hd.
    now rewrite strip_by_none.
  - rewrite (strip_by_none _ (String squote pre)).
    + unfold strip_by. simpl lstrip_by.
      now rewrite lstrip_by_none, rstrip_by_none.
    + simpl. exact Hd.
Qed.

(** What the text before the first delimiter leaves of the line. *)
Lemma strip_reference ws q pre c tail :
  all_chars is_space ws = true -> opening q ->
  all_chars plain_char pre = true -> is_delim c = true ->
  strip (reference_line ws q pre c tail) = (q ++ pre) ++ String c (rstrip_by is_space tail).
Proof.
  intros Hws Hq Hpre Hc. unfold reference_line, strip, strip_by.
  pose proof (delim_not_space _ Hc) as Hcs.
  pose proof (plain_not_space _ Hpre) as Hps.
  assert (Hqs : all_chars (fun x => negb (is_space x)) (q ++ pre) = true).
  { rewrite all_chars_app, Hps. destruct Hq as [-> | [-> | ->]]; reflexivity. }
  replace (ws ++ q ++ pre ++ String c tail)
    with (ws ++ ((q ++ pre) ++ String c tail)) by now rewrite append_assoc'.
  destruct (q ++ pre) as [|x xs] eqn:E.
  - simpl append at 2. rewrite lstrip_by_run by assumption.
    now rewrite rstrip_by_keep.
  - simpl in Hqs. apply andb_true_iff in Hqs as [Hx Hxs]. apply negb_true_iff in Hx.
    change (String x xs ++ String c tail) with (String x (xs ++ String c tail)).
    rewrite lstrip_by_run by assumption.
    rewrite rstrip_by_keep by exact Hx.
    rewrite rstrip_by_keep_app by exact Hxs.
    now rewrite rstrip_by_keep.
Qed.

Lemma hd_split_reference q pre c rest :
  opening q -> all_chars plain_char pre = true -> is_delim c = true ->
  hd EmptyString (split_by is_delim ((q ++ pre) ++ String c rest)) = q ++ pre.
Proof.
  intros Hq Hpre Hc. rewrite split_by_first; [reflexivity | | exact Hc].
  rewrite all_chars_app, (plain_not_delim _ Hpre).
  destruct Hq as [-> | [-> | ->]]; reflexivity.
Qed.

(** The reader returns the plain characters before the first delimiter. *)
Lemma read_value_truncated ws q pre c tail :
  all_chars is_space ws = true -> opening q ->
  all_chars plain_char pre = true -> is_delim c = true ->
  truthy pre = true ->
  read_value (reference_line ws q pre c tail) TStr = Some pre.
Proof.
  intros Hws Hq Hpre Hc Hne. unfold read_value.
  rewrite strip_reference by assumption.
  rewrite hd_split_reference by assumption.
  assert (Hqs : all_chars (fun x => negb (is_space x)) (q ++ pre) = true).
  { rewrite all_chars_app, (plain_not_space _ Hpre).
    destruct Hq as [-> | [-> | ->]]; reflexivity. }
  unfold strip. rewrite strip_by_none by exact Hqs.
  destruct (q ++ pre) as [|x xs] eqn:E.
  - destruct pre; [discriminate|]. destruct Hq as [-> | [-> | ->]]; discriminate.
  - simpl truthy. simpl negb. cbv iota.
    rewrite split_ws_word by exact Hqs. rewrite <- E.
    simpl coerce. now rewrite unquote_opening.
Qed.

(** When a delimiter comes first, no usable name is read. *)
Lemma read_value_no_name ws q c tail :
  all_chars is_space ws = true -> opening q -> is_delim c = true ->
  named (read_value (reference_line ws q EmptyString c tail) TStr) = None.
Proof.
  intros Hws Hq Hc. unfold read_value.
  rewrite strip_reference by (assumption || reflexivity).
  rewrite hd_split_reference by (assumption || reflexivity).
  destruct Hq as [-> | [-> | ->]]; reflexivity.
Qed.

Lemma named_read_reference ws q pre c tail :
  all_chars is_space ws = true -> opening q ->
  all_chars plain_char pre = true -> is_delim c = true ->
  named (read_value (reference_line ws q pre c tail) TStr) = named (Some pre).
Proof.
  intros Hws Hq Hpre Hc. destruct pre as [|x xs].
  - now rewrite read_value_no_name.
  - now rewrite read_value_truncated.
Qed.

End ReadFacts.

(* ===================================================================== *)
(** * Facts about the parsers *)
(* ===================================================================== *)

Module ParserFacts.
Import PyStr PyNum Extractor Spec StrFacts ReadFacts.

(** ** What the table parsers leave untouched *)

Ltac table_frame :=
  intros; unfold parse_blade_file, parse_tower_file;
  match goal with
  | |- context [blade_rows ?l ?b ?s] => destruct (blade_rows l b s)
  | |- context [tower_rows ?l ?b ?s] => destruct (tower_rows l b s)
  end; reflexivity.

Lemma blade_ok c g : fst (parse_blade_file c g) = true.
Proof. table_frame. Qed.
Lemma blade_errors c g :
  Geometry.errors (snd (parse_blade_file c g)) = Geometry.errors g.
Proof. table_frame. Qed.
Lemma blade_config c g :
  Geometry.config (snd (parse_blade_file c g)) = Geometry.config g.
Proof. table_frame. Qed.
Lemma blade_tower c g :
  Geometry.tower (snd (parse_blade_file c g)) = Geometry.tower g.
Proof. table_frame. Qed.
Lemma blade_hub c g :
  Geometry.hub (snd (parse_blade_file c g)) = Geometry.hub g.
Proof. table_frame. Qed.
Lemma blade_length c g :
  Geometry.blades_length (Geometry.blades (snd (parse_blade_file c g)))
  = Geometry.blades_length (Geometry.blades g).
Proof. table_frame. Qed.
Lemma blade_precone c g :
  Geometry.precone (Geometry.blades (snd (parse_blade_file c g)))
  = Geometry.precone (Geometry.blades g).
Proof. table_frame. Qed.

Lemma tower_ok c g : fst (parse_tower_file c g) = true.
Proof. table_frame. Qed.
Lemma tower_errors c g :
  Geometry.errors (snd (parse_tower_file c g)) = Geometry.errors g.
Proof. table_frame. Qed.
Lemma tower_config c g :
  Geometry.config (snd (parse_tower_file c g)) = Geometry.config g.
Proof. table_frame. Qed.
Lemma tower_blades c g :
  Geometry.blades (snd (parse_tower_file c g)) = Geometry.blades g.
Proof. table_frame. Qed.
Lemma tower_hub c g :
  Geometry.hub (snd (parse_tower_file c g)) = Geometry.hub g.
Proof. table_frame. Qed.
Lemma tower_height c g :
  Geometry.height (Geometry.tower (snd (parse_tower_file c g)))
  = Geometry.height (Geometry.tower g).
Proof. table_frame. Qed.
Lemma tower_base c g :
  Geometry.baseElevation (Geometry.tower (snd (parse_tower_file c g)))
  = Geometry.baseElevation (Geometry.tower g).
Proof. table_frame. Qed.

Create Rewrite HintDb frame.
#[export] Hint Rewrite blade_errors blade_config blade_tower blade_hub
  blade_length blade_precone tower_errors tower_config tower_blades tower_hub
  tower_height tower_base : frame.

(** Case analysis on one iteration of the structural loop. *)
Ltac ed_cases :=
  unfold ed_step;
  match goal with
  | |- context [classify ?l] => destruct (classify l)
  end;
  repeat match goal with
  | |- context [match read_value ?l ?ty with _ => _ end] =>
      destruct (read_value l ty)
  | |- context [if float_truthy ?x then _ else _] => destruct (float_truthy x)
  | |- context [match usable ?c with _ => _ end] => destruct (usable c)
  end;
  cbn [ed_with ed_geometry tower_ht twr2shft tower_bs_ht];
  autorewrite with frame; try reflexivity.

(** ** Errors are never touched below the aggregator *)

Lemma ed_step_errors files raw st :
  Geometry.errors (ed_geometry (ed_step files raw st))
  = Geometry.errors (ed_geometry st).
Proof. ed_cases. Qed.

Lemma ed_loop_errors files lines st :
  Geometry.errors (ed_geometry (ed_loop files lines st))
  = Geometry.errors (ed_geometry st).
Proof.
  unfold ed_loop. revert st.
  induction lines as [|l ls IH]; intros st; [reflexivity|].
  simpl. now rewrite IH, ed_step_errors.
Qed.

Lemma ed_finish_errors st :
  Geometry.errors (ed_finish st) = Geometry.errors (ed_geometry st).
Proof. unfold ed_finish. destruct (tower_ht st); reflexivity. Qed.

Lemma elastodyn_ok files c g : fst (parse_elastodyn_file files c g) = true.
Proof. reflexivity. Qed.

Lemma elastodyn_errors files c g :
  Geometry.errors (snd (parse_elastodyn_file files c g)) = Geometry.errors g.
Proof.
  unfold parse_elastodyn_file. simpl snd.
  now rewrite ed_finish_errors, ed_loop_errors.
Qed.

Lemma main_step_errors files line st :
  Geometry.errors (main_geometry (main_step files line st))
  = Geometry.errors (main_geometry st).
Proof.
  unfold main_step.
  destruct (is_skipped line); [reflexivity|].
  destruct (is_ed_reference line).
  - destruct (usable _); cbn [main_geometry].
    + apply elastodyn_errors.
    + destruct (named _); reflexivity.
  - destruct (is_aero_reference line); [|reflexivity].
    destruct (usable _); reflexivity.
Qed.

Lemma main_loop_errors files lines st :
  Geometry.errors (main_geometry (main_loop files lines st))
  = Geometry.errors (main_geometry st).
Proof.
  unfold main_loop. revert st.
  induction lines as [|l ls IH]; intros st; [reflexivity|].
  simpl. now rewrite IH, main_step_errors.
Qed.

Lemma main_ok files c g : fst (parse_main_file files c g) = true.
Proof. reflexivity. Qed.

Lemma main_errors files c g :
  Geometry.errors (snd (parse_main_file files c g)) = Geometry.errors g.
Proof.
  unfold parse_main_file. cbn [snd].
  destruct (found_ed _); cbn; now rewrite main_loop_errors.
Qed.

(** ** The main-file search *)

Lemma find_main_no_fst files : no_fst files = true -> find_main files = None.
Proof.
  induction files as [|[k v] rest IH]; [reflexivity|]. simpl.
  intros H. apply andb_true_iff in H as [Hk Hr].
  apply negb_true_iff in Hk. rewrite Hk. now apply IH.
Qed.

Lemma find_main_first files name content :
  first_fst files name content -> find_main files = Some content.
Proof.
  intros (before & after & -> & Hb & Hn).
  induction before as [|[k v] rest IH]; simpl in *.
  - now rewrite Hn.
  - apply andb_true_iff in Hb as [Hk Hr]. apply negb_true_iff in Hk.
    rewrite Hk. now apply IH.
Qed.

Lemma usable_nonempty c : truthy c = true -> usable (Some c) = Some c.
Proof. intros H. simpl. now rewrite H. Qed.

(** The flag the aggregator returns. *)
Lemma success_extract self :
  success (extract_geometry self)
  = match usable (find_main (self_files self)) with
    | Some _ => no_errors (self_geometry self)
    | None => false
    end.
Proof.
  unfold extract_geometry. destruct (usable _) as [c|]; [|reflexivity].
  pose proof (main_errors (self_files self) c (self_geometry self)) as He.
  destruct (parse_main_file _ c _) as [ok g] eqn:E.
  pose proof (main_ok (self_files self) c (self_geometry self)) as Hok.
  rewrite E in *. simpl in *. subst ok. unfold no_errors. now rewrite He.
Qed.

End ParserFacts.

Module ScalarFacts.
Import PyStr PyNum Extractor Spec StrFacts ReadFacts ParserFacts.

Lemma last_of_cons {A : Type} (x : A) l :
  last_of (x :: l) = match last_of l with Some v => Some v | None => Some x end.
Proof.
  unfold last_of. simpl. destruct (rev l); reflexivity.
Qed.

Lemma overwritten_cons {A : Type} (old : option A) x l :
  overwritten old (x :: l) = overwritten (Some x) l.
Proof.
  unfold overwritten. rewrite last_of_cons. destruct (last_of l); reflexivity.
Qed.

(** A field that each line either overwrites or leaves alone holds, after
    the loop, the last value written. *)
Lemma ed_loop_field {A : Type} (f : ed_state -> option A)
    (w : string -> option A) files :
  (forall raw st,
     f (ed_step files raw st) = match w raw with Some v => Some v | None => f st end) ->
  forall lines st,
    f (ed_loop files lines st) = overwritten (f st) (successes (map w lines)).
Proof.
  intros Hstep. unfold ed_loop.
  induction lines as [|l ls IH]; intros st; [reflexivity|].
  simpl. rewrite IH, Hstep. destruct (w l); simpl.
  - now rewrite overwritten_cons.
  - reflexivity.
Qed.

Lemma successes_line_write {A : Type} k ty (h : option (py_type ty) -> option A) lines :
  successes (map (line_write k ty h) lines) = successes (map h (reads k ty lines)).
Proof.
  unfold reads, lines_for, line_write.
  induction lines as [|l ls IH]; [reflexivity|]. simpl.
  destruct (keyword_eqb _ k); simpl.
  - destruct (h _); now rewrite IH.
  - exact IH.
Qed.

Lemma successes_map_Some {A : Type} (l : list A) : successes (map Some l) = l.
Proof. induction l as [|x l IH]; simpl; [reflexivity | now rewrite IH]. Qed.

Lemma successes_map_id {A : Type} (l : list (option A)) :
  successes (map (fun o => o) l) = successes l.
Proof. now rewrite map_id. Qed.

Lemma successes_if_nonzero l :
  successes (map if_nonzero l) = filter float_truthy (successes l).
Proof.
  induction l as [|[x|] l IH]; simpl; [reflexivity| |exact IH].
  destruct (float_truthy x); simpl; now rewrite IH.
Qed.

Lemma successes_twice l :
  successes (map (fun o => option_map twice (if_nonzero o)) l)
  = map twice (filter float_truthy (successes l)).
Proof.
  induction l as [|[x|] l IH]; simpl; [reflexivity| |exact IH].
  destruct (float_truthy x); simpl; now rewrite IH.
Qed.

(** One iteration, field by field. *)
Ltac field_step :=
  intros; unfold line_write, ed_step;
  match goal with
  | |- context [classify ?l] => destruct (classify l)
  end;
  cbn [keyword_eqb]; unfold if_nonzero, option_map;
  repeat match goal with
  | |- context [read_value ?l ?ty] => destruct (read_value l ty)
  | |- context [if float_truthy ?x then _ else _] => destruct (float_truthy x)
  | |- context [match usable ?c with _ => _ end] => destruct (usable c)
  end;
  cbn [ed_with ed_geometry tower_ht twr2shft tower_bs_ht if_nonzero option_map];
  autorewrite with frame; try reflexivity.

Lemma step_numBlades files raw st :
  Geometry.numBlades (Geometry.config (ed_geometry (ed_step files raw st)))
  = match line_write NumBl TInt Some raw with
    | Some v => Some v
    | None => Geometry.numBlades (Geometry.config (ed_geometry st))
    end.
Proof. field_step. Qed.

Lemma step_radius files raw st :
  Geometry.radius (Geometry.hub (ed_geometry (ed_step files raw st)))
  = match line_write HubRad TFloat Some raw with
    | Some v => Some v
    | None => Geometry.radius (Geometry.hub (ed_geometry st))
    end.
Proof. field_step. Qed.

Lemma step_precone files raw st :
  Geometry.precone (Geometry.blades (ed_geometry (ed_step files raw st)))
  = match line_write PreCone TFloat Some raw with
    | Some v => Some v
    | None => Geometry.precone (Geometry.blades (ed_geometry st))
    end.
Proof. field_step. Qed.

Lemma step_overhang files raw st :
  Geometry.overhang (Geometry.hub (ed_geometry (ed_step files raw st)))
  = match line_write OverHang TFloat Some raw with
    | Some v => Some v
    | None => Geometry.overhang (Geometry.hub (ed_geometry st))
    end.
Proof. field_step. Qed.

Lemma step_shaftTilt files raw st :
  Geometry.shaftTilt (Geometry.hub (ed_geometry (ed_step files raw st)))
  = match line_write ShftTilt TFloat Some raw with
    | Some v => Some v
    | None => Geometry.shaftTilt (Geometry.hub (ed_geometry st))
    end.
Proof. field_step. Qed.

Lemma step_length files raw st :
  Geometry.blades_length (Geometry.blades (ed_geometry (ed_step files raw st)))
  = match line_write TipRad TFloat if_nonzero raw with
    | Some v => Some v
    | None => Geometry.blades_length (Geometry.blades (ed_geometry st))
    end.
Proof. field_step. Qed.

Lemma step_rotorDiameter files raw st :
  Geometry.rotorDiameter (Geometry.config (ed_geometry (ed_step files raw st)))
  = match line_write TipRad TFloat (fun o => option_map twice (if_nonzero o)) raw with
    | Some v => Some v
    | None => Geometry.rotorDiameter (Geometry.config (ed_geometry st))
    end.
Proof. field_step. Qed.

Lemma step_height files raw st :
  Geometry.height (Geometry.tower (ed_geometry (ed_step files raw st)))
  = match line_write TowerHt TFloat if_nonzero raw with
    | Some v => Some v
    | None => Geometry.height (Geometry.tower (ed_geometry st))
    end.
Proof. field_step. Qed.

Lemma step_baseElevation files raw st :
  Geometry.baseElevation (Geometry.tower (ed_geometry (ed_step files raw st)))
  = match line_write TowerBsHt TFloat (fun o => o) raw with
    | Some v => Some v
    | None => Geometry.baseElevation (Geometry.tower (ed_geometry st))
    end.
Proof. field_step. Qed.

Lemma step_hubHeight files raw st :
  Geometry.hubHeight (Geometry.config (ed_geometry (ed_step files raw st)))
  = match line_write NoKeyword TStr (fun _ => @None float) raw with
    | Some v => Some v
    | None => Geometry.hubHeight (Geometry.config (ed_geometry st))
    end.
Proof. field_step. Qed.

Lemma step_tower_ht files raw st :
  Some (tower_ht (ed_step files raw st))
  = match line_write TowerHt TFloat Some raw with
    | Some v => Some v
    | None => Some (tower_ht st)
    end.
Proof. field_step. Qed.

Lemma step_twr2shft files raw st :
  Some (twr2shft (ed_step files raw st))
  = match line_write Twr2Shft TFloat Some raw with
    | Some v => Some v
    | None => Some (twr2shft st)
    end.
Proof. field_step. Qed.

(** The local variables after the loop. *)
Lemma loop_tower_ht files lines st :
  tower_ht (ed_loop files lines st)
  = match last_of (reads TowerHt TFloat lines) with
    | Some v => v
    | None => tower_ht st
    end.
Proof.
  pose proof (ed_loop_field (fun s => Some (tower_ht s)) _ files
                (step_tower_ht files) lines st) as H.
  cbv beta in H. rewrite successes_line_write, successes_map_Some in H.
  unfold overwritten in H. destruct (last_of _); now inversion H.
Qed.

Lemma loop_twr2shft files lines st :
  twr2shft (ed_loop files lines st)
  = match last_of (reads Twr2Shft TFloat lines) with
    | Some v => v
    | None => twr2shft st
    end.
Proof.
  pose proof (ed_loop_field (fun s => Some (twr2shft s)) _ files
                (step_twr2shft files) lines st) as H.
  cbv beta in H. rewrite successes_line_write, successes_map_Some in H.
  unfold overwritten in H. destruct (last_of _); now inversion H.
Qed.

Lemma loop_hubHeight files lines st :
  Geometry.hubHeight (Geometry.config (ed_geometry (ed_loop files lines st)))
  = Geometry.hubHeight (Geometry.config (ed_geometry st)).
Proof.
  rewrite (ed_loop_field
             (fun s => Geometry.hubHeight (Geometry.config (ed_geometry s))) _ files
             (step_hubHeight files) lines st).
  rewrite successes_line_write.
  assert (E : forall l : list (option string),
             successes (map (fun _ => @None float) l) = []).
  { induction l; simpl; auto. }
  unfold py_type in *. now rewrite E.
Qed.

(** What the end of the method does to the scalar fields. *)
Ltac finish_frame := intros; unfold ed_finish; destruct (tower_ht _); reflexivity.

Lemma finish_blades st : Geometry.blades (ed_finish st) = Geometry.blades (ed_geometry st).
Proof. finish_frame. Qed.
Lemma finish_tower st : Geometry.tower (ed_finish st) = Geometry.tower (ed_geometry st).
Proof. finish_frame. Qed.
Lemma finish_hub st : Geometry.hub (ed_finish st) = Geometry.hub (ed_geometry st).
Proof. finish_frame. Qed.
Lemma finish_numBlades st :
  Geometry.numBlades (Geometry.config (ed_finish st))
  = Geometry.numBlades (Geometry.config (ed_geometry st)).
Proof. finish_frame. Qed.
Lemma finish_rotorDiameter st :
  Geometry.rotorDiameter (Geometry.config (ed_finish st))
  = Geometry.rotorDiameter (Geometry.config (ed_geometry st)).
Proof. finish_frame. Qed.

Lemma finish_hubHeight st :
  Geometry.hubHeight (Geometry.config (ed_finish st))
  = match tower_ht st with
    | Some ht => Some match twr2shft st with
                      | Some off => fadd ht off
                      | None => ht
                      end
    | None => Geometry.hubHeight (Geometry.config (ed_geometry st))
    end.
Proof. unfold ed_finish. destruct (tower_ht st); reflexivity. Qed.

End ScalarFacts.

Module StoreFacts.
Import PyStr PyNum Extractor Spec.

Lemma lookup_first_content name files :
  FileStore.lookup name files = first_content (fun k => String.eqb k name) files.
Proof.
  unfold first_content.
  induction files as [|[k v] rest IH]; [reflexivity|]. simpl.
  destruct (String.eqb k name); [reflexivity | exact IH].
Qed.

Lemma scan_basename_first_content wanted files :
  scan_basename wanted files
  = first_content (fun k => String.eqb (basename k) wanted) files.
Proof.
  unfold first_content.
  induction files as [|[k v] rest IH]; [reflexivity|]. simpl.
  destruct (String.eqb (basename k) wanted); [reflexivity | exact IH].
Qed.

Lemma first_content_none p files :
  first_content p files = None <-> forall k c, In (k, c) files -> p k = false.
Proof.
  unfold first_content. induction files as [|[k v] rest IH]; simpl.
  - split; [intros _ k c [] | reflexivity].
  - destruct (p k) eqn:E; simpl.
    + split; [discriminate|]. intros H. specialize (H k v (or_introl eq_refl)). congruence.
    + rewrite IH. split.
      * intros H k' c' [Heq|Hin]; [inversion Heq; subst; exact E | eauto].
      * intros H k' c' Hin. eauto.
Qed.

Lemma get_file_spec files filepath :
  get_file files filepath = resolve_spec files filepath.
Proof.
  unfold get_file, resolve_spec, rule_exact, rule_segment, rule_segments.
  rewrite !lookup_first_content, scan_basename_first_content. simpl.
  destruct (first_content _ files); [reflexivity|].
  destruct (first_content _ files); [reflexivity|].
  destruct (first_content _ files); reflexivity.
Qed.

Lemma get_file_none files filepath :
  get_file files filepath = None <-> no_key_matches files filepath.
Proof.
  rewrite get_file_spec. unfold resolve_spec, no_key_matches, rule_exact,
    rule_segment, rule_segments. simpl.
  split.
  - intros H k c Hin.
    destruct (first_content (fun k => String.eqb k filepath) files) eqn:Ea;
      [discriminate|].
    destruct (first_content (fun k => String.eqb k (basename filepath)) files) eqn:Eb;
      [discriminate|].
    destruct (first_content (fun k => String.eqb (basename k) (basename filepath)) files) eqn:Ec;
      [discriminate|].
    clear H. rename Ec into H.
    rewrite first_content_none in Ea, Eb, H.
    specialize (Ea _ _ Hin). specialize (Eb _ _ Hin). specialize (H _ _ Hin).
    cbv beta in *. apply String.eqb_neq in Ea, Eb, H. auto.
  - intros H.
    assert (Ea : first_content (fun k => String.eqb k filepath) files = None).
    { apply first_content_none. intros k c Hin. apply String.eqb_neq.
      now destruct (H k c Hin). }
    assert (Eb : first_content (fun k => String.eqb k (basename filepath)) files = None).
    { apply first_content_none. intros k c Hin. apply String.eqb_neq.
      now destruct (H k c Hin) as (_ & ? & _). }
    assert (Ec : first_content
                   (fun k => String.eqb (basename k) (basename filepath)) files = None).
    { apply first_content_none. intros k c Hin.
      apply String.eqb_neq. now destruct (H k c Hin) as (_ & _ & ?). }
    now rewrite Ea, Eb, Ec.
Qed.

Lemma first_content_some p files c :
  first_content p files = Some c -> exists k, In (k, c) files /\ p k = true.
Proof.
  unfold first_content. destruct (find _ files) as [[k v]|] eqn:E; [|discriminate].
  intros H. inversion H; subst. apply find_some in E as [Hin Hp].
  exists k. now split.
Qed.

(** A resolved request matches a stored name under one of the rules. *)
Lemma get_file_some files filepath c :
  get_file files filepath = Some c ->
  exists k, In (k, c) files
            /\ (k = filepath \/ k = basename filepath
                \/ basename k = basename filepath).
Proof.
  rewrite get_file_spec.
  unfold resolve_spec, rule_exact, rule_segment, rule_segments. simpl.
  destruct (first_content (fun k => String.eqb k filepath) files) eqn:Ea.
  { intros H. inversion H; subst.
    apply first_content_some in Ea as (k & Hin & Hk).
    apply String.eqb_eq in Hk. eauto. }
  destruct (first_content (fun k => String.eqb k (basename filepath)) files) eqn:Eb.
  { intros H. inversion H; subst.
    apply first_content_some in Eb as (k & Hin & Hk).
    apply String.eqb_eq in Hk. eauto. }
  destruct (first_content (fun k => String.eqb (basename k) (basename filepath)) files)
    eqn:Ec; [|discriminate].
  intros H. inversion H; subst.
  apply first_content_some in Ec as (k & Hin & Hk).
  apply String.eqb_eq in Hk. eauto.
Qed.

End StoreFacts.

Module MainFacts.
Import PyStr PyNum Extractor Spec StrFacts ReadFacts ParserFacts ScalarFacts.

(** A main file without a line on the structural branch: the loop records
    no warning and finds no structural file. *)
Lemma main_loop_no_ed files lines st :
  Forall (fun line => is_skipped line = true \/ is_ed_reference line = false) lines ->
  Geometry.warnings (main_geometry (main_loop files lines st))
  = Geometry.warnings (main_geometry st)
  /\ found_ed (main_loop files lines st) = found_ed st.
Proof.
  unfold main_loop. intros H. revert st.
  induction H as [|l ls Hl _ IH]; intros st; [split; reflexivity|].
  simpl. destruct (IH (main_step files l st)) as [Hw Hf]. rewrite Hw, Hf.
  unfold main_step. destruct (is_skipped l) eqn:Es; [split; reflexivity|].
  destruct Hl as [Hl|Hl]; [discriminate|]. rewrite Hl.
  destruct (is_aero_reference l); [|split; reflexivity].
  destruct (usable _); split; reflexivity.
Qed.

End MainFacts.

(* ===================================================================== *)
(** * Facts about tables, tokens, the store and whole runs *)
(* ===================================================================== *)

Module TableFacts.
Import PyStr PyNum Extractor Spec Notions.

Lemma blade_station_short parts :
  (List.length parts < 3)%nat -> blade_station parts = None.
Proof.
  destruct parts as [|a [|b [|c l]]]; simpl; intros H;
    (reflexivity || lia).
Qed.

(** Inside the table the loop collects the rows in file order. *)
Lemma blade_rows_in_table lines stations :
  blade_rows lines true stations = (stations ++ flat_map blade_row lines)%list.
Proof.
  revert stations.
  induction lines as [|line rest IH]; intros stations.
  - simpl. now rewrite app_nil_r.
  - cbn [blade_rows flat_map]. unfold blade_row at 1, is_blade_header.
    destruct (contains "BLFRACT" (upper line)); [apply IH|].
    cbn [andb]. destruct (is_row line); [|apply IH].
    destruct (3 <=? _)%nat eqn:E.
    + destruct (blade_station _); [|apply IH].
      rewrite IH, <- app_assoc. reflexivity.
    + apply Nat.leb_gt in E. rewrite (blade_station_short _ E). apply IH.
Qed.

Lemma blade_rows_before_table lines stations :
  blade_rows lines false stations
  = (stations ++ flat_map blade_row (after_header is_blade_header lines))%list.
Proof.
  induction lines as [|line rest IH].
  - simpl. now rewrite app_nil_r.
  - cbn [blade_rows after_header]. unfold is_blade_header at 1.
    destruct (contains "BLFRACT" (upper line)).
    + apply blade_rows_in_table.
    + cbn [andb]. apply IH.
Qed.

Lemma tower_line_from_value line v :
  startswith "---" (strip line) = false -> tower_value line = v ->
  tower_stop line
  = match v with
    | Some (Some h) => negb (in_unit_interval h)
    | Some None => true
    | None => false
    end
  /\ tower_row line
     = match v with
       | Some (Some h) =>
           if in_unit_interval h then [Geometry.mkTowerStation h] else []
       | _ => []
       end.
Proof.
  intros Es Hv. unfold tower_stop, tower_row. rewrite Es, Hv. split; reflexivity.
Qed.

Lemma tower_rows_in_table lines stations :
  tower_rows lines true stations
  = (stations ++ flat_map tower_row (until tower_stop lines))%list.
Proof.
  revert stations.
  induction lines as [|line rest IH]; intros stations.
  - simpl. now rewrite app_nil_r.
  - cbn [tower_rows until andb].
    destruct (startswith "---" (strip line)) eqn:Es.
    { unfold tower_stop. rewrite Es. simpl. now rewrite app_nil_r. }
    destruct (contains "HTFRACT" (upper line)) eqn:Eh.
    { destruct (tower_line_from_value line None Es) as [Hs Hr].
      { unfold tower_value, is_tower_header. now rewrite Eh. }
      rewrite Hs. cbn [flat_map]. rewrite Hr. apply IH. }
    destruct (is_row line) eqn:Er.
    2:{ destruct (tower_line_from_value line None Es) as [Hs Hr].
        { unfold tower_value, is_tower_header. now rewrite Eh, Er. }
        rewrite Hs. cbn [flat_map]. rewrite Hr. apply IH. }
    destruct (split_ws (drop_comment line)) as [|p0 ps] eqn:Ep.
    { destruct (tower_line_from_value line None Es) as [Hs Hr].
      { unfold tower_value, is_tower_header. now rewrite Eh, Er, Ep. }
      rewrite Hs. cbn [flat_map]. rewrite Hr. apply IH. }
    destruct (tower_line_from_value line (Some (py_float p0)) Es) as [Hs Hr].
    { unfold tower_value, is_tower_header. now rewrite Eh, Er, Ep. }
    rewrite Hs. destruct (py_float p0) as [h|].
    2:{ simpl. now rewrite app_nil_r. }
    destruct (in_unit_interval h) eqn:Eu; cbn [negb].
    + cbn [flat_map]. rewrite Hr, IH, <- app_assoc. reflexivity.
    + simpl. now rewrite app_nil_r.
Qed.

Lemma tower_rows_before_table lines stations :
  tower_rows lines false stations
  = (stations
     ++ flat_map tower_row (until tower_stop (after_header is_tower_header lines)))%list.
Proof.
  induction lines as [|line rest IH].
  - simpl. now rewrite app_nil_r.
  - cbn [tower_rows after_header andb]. unfold is_tower_header at 1.
    destruct (contains "HTFRACT" (upper line)).
    + apply tower_rows_in_table.
    + apply IH.
Qed.

Lemma after_header_none is_header lines :
  Forall (fun line => is_header line = false) lines ->
  after_header is_header lines = [].
Proof.
  induction 1 as [|l ls Hl _ IH]; [reflexivity|]. simpl. now rewrite Hl.
Qed.

Lemma tower_row_in_unit line :
  Forall (fun s => in_unit_interval (Geometry.heightFraction s) = true) (tower_row line).
Proof.
  unfold tower_row. destruct (tower_value line) as [[h|]|]; try constructor.
  destruct (in_unit_interval h) eqn:E; constructor; [exact E | constructor].
Qed.

Lemma tower_table_in_unit lines :
  Forall (fun s => in_unit_interval (Geometry.heightFraction s) = true)
    (flat_map tower_row lines).
Proof.
  induction lines as [|l ls IH]; [constructor|]. simpl.
  apply Forall_app. split; [apply tower_row_in_unit | exact IH].
Qed.

End TableFacts.

Module TokenFacts.
Import PyStr PyNum Extractor Spec Notions StrFacts ReadFacts.

(** ** Stripping and splitting keep a property of all characters *)

Lemma all_chars_lstrip q p s :
  all_chars q s = true -> all_chars q (lstrip_by p s) = true.
Proof.
  induction s as [|x s IH]; [reflexivity|]. intros H. simpl.
  destruct (p x); [|exact H].
  simpl in H. apply andb_true_iff in H as [_ H]. now apply IH.
Qed.

Lemma all_chars_rstrip q p s :
  all_chars q s = true -> all_chars q (rstrip_by p s) = true.
Proof.
  induction s as [|x s IH]; [reflexivity|]. intros H. simpl in *.
  apply andb_true_iff in H as [Hx H]. specialize (IH H).
  destruct (rstrip_by p s) as [|y r].
  - destruct (p x); [reflexivity|]. simpl. now rewrite Hx.
  - change (all_chars q (String x (String y r)))
      with (q x && all_chars q (String y r)). now rewrite Hx, IH.
Qed.

Lemma all_chars_strip q p s :
  all_chars q s = true -> all_chars q (strip_by p s) = true.
Proof.
  intros H. unfold strip_by. now apply all_chars_rstrip, all_chars_lstrip.
Qed.

Lemma all_chars_and (q1 q2 : ascii -> bool) s :
  all_chars q1 s = true -> all_chars q2 s = true ->
  all_chars (fun c => q1 c && q2 c) s = true.
Proof.
  induction s as [|x s IH]; [reflexivity|]. simpl. intros H1 H2.
  apply andb_true_iff in H1 as [H1 H1']. apply andb_true_iff in H2 as [H2 H2'].
  now rewrite H1, H2, IH.
Qed.

Lemma split_by_nonempty p s : split_by p s <> [].
Proof.
  destruct s as [|x s]; simpl; [discriminate|].
  destruct (p x); [discriminate|]. destruct (split_by p s); discriminate.
Qed.

(** What comes before the first delimiter holds no delimiter. *)
Lemma hd_split_by_clean p s :
  all_chars (fun c => negb (p c)) (hd EmptyString (split_by p s)) = true.
Proof.
  induction s as [|x s IH]; [reflexivity|]. simpl.
  destruct (p x) eqn:Hx; [reflexivity|].
  destruct (split_by p s) as [|h t]; simpl in *; now rewrite Hx.
Qed.

Lemma split_by_clean p s :
  all_chars (fun c => negb (p c)) s = true -> split_by p s = [s].
Proof.
  induction s as [|x s IH]; [reflexivity|]. simpl. intros H.
  apply andb_true_iff in H as [Hx H]. apply negb_true_iff in Hx.
  now rewrite Hx, IH.
Qed.

Lemma split_ws_keeps q s :
  all_chars q s = true -> Forall (fun t => all_chars q t = true) (split_ws s).
Proof.
  induction s as [|x s IH]; [constructor|]. intros H.
  simpl in H. apply andb_true_iff in H as [Hx H]. specialize (IH H).
  destruct s as [|y s'].
  - simpl. destruct (is_space x); constructor; [|constructor]. simpl. now rewrite Hx.
  - change (split_ws (String x (String y s'))) with
      (if is_space x then split_ws (String y s')
       else if is_space y then String x EmptyString :: split_ws (String y s')
       else match split_ws (String y s') with
            | h :: t => String x h :: t
            | [] => [String x EmptyString]
            end).
    destruct (is_space x); [exact IH|].
    destruct (is_space y).
    + constructor; [|exact IH]. simpl. now rewrite Hx.
    + destruct (split_ws (String y s')) as [|h t].
      * constructor; [|constructor]. simpl. now rewrite Hx.
      * inversion IH; subst. constructor; [|assumption]. simpl. now rewrite Hx.
Qed.

Lemma split_ws_no_space s :
  Forall (fun t => all_chars (fun c => negb (is_space c)) t = true) (split_ws s).
Proof.
  induction s as [|x s IH]; [constructor|].
  destruct s as [|y s'].
  - simpl. destruct (is_space x) eqn:Hx; constructor; [|constructor].
    simpl. now rewrite Hx.
  - change (split_ws (String x (String y s'))) with
      (if is_space x then split_ws (String y s')
       else if is_space y then String x EmptyString :: split_ws (String y s')
       else match split_ws (String y s') with
            | h :: t => String x h :: t
            | [] => [String x EmptyString]
            end).
    destruct (is_space x) eqn:Hx; [exact IH|].
    destruct (is_space y).
    + constructor; [|exact IH]. simpl. now rewrite Hx.
    + destruct (split_ws (String y s')) as [|h t].
      * constructor; [|constructor]. simpl. now rewrite Hx.
      * inversion IH; subst. constructor; [|assumption]. simpl. now rewrite Hx.
Qed.

(** ** The token the reader coerces *)

Lemma read_value_token line ty r :
  read_value line ty = Some r ->
  exists v, all_chars token_char v = true /\ coerce ty v = Some r.
Proof.
  unfold read_value.
  set (part0 := strip (hd EmptyString (split_by is_delim (strip line)))).
  assert (Hd : all_chars (fun c => negb (is_delim c)) part0 = true).
  { apply all_chars_strip, hd_split_by_clean. }
  destruct (truthy part0); [|discriminate]. cbn [negb].
  pose proof (split_ws_keeps _ _ Hd) as Hk.
  pose proof (split_ws_no_space part0) as Hn.
  destruct (split_ws part0) as [|value rest]; [discriminate|].
  inversion Hk; subst. inversion Hn; subst.
  intros H. eexists. split; [|exact H].
  unfold strip_chars. apply all_chars_strip, all_chars_strip.
  unfold token_char. now apply all_chars_and.
Qed.

(** ** Numbers without a minus sign *)

Lemma take_sign_clean s :
  all_chars (fun c => negb (is_delim c)) s = true -> fst (take_sign s) = false.
Proof.
  destruct s as [|x s]; [reflexivity|]. simpl. intros H.
  apply andb_true_iff in H as [Hx _]. apply negb_true_iff in Hx.
  unfold is_delim in Hx. apply orb_false_iff in Hx as [_ Hx]. rewrite Hx.
  destruct (Ascii.eqb x "+"); reflexivity.
Qed.

Lemma digit_val_nonneg c d : digit_val c = Some d -> (0 <= d)%Z.
Proof.
  unfold digit_val. destruct (_ && _); [|discriminate].
  intros H. inversion H; subst. apply Nat2Z.is_nonneg.
Qed.

Lemma Z_of_digits_nonneg ds :
  Forall (fun d => (0 <= d)%Z) ds -> (0 <= Z_of_digits ds)%Z.
Proof.
  unfold Z_of_digits.
  assert (G : forall acc, (0 <= acc)%Z -> Forall (fun d => (0 <= d)%Z) ds ->
              (0 <= fold_left (fun a d => 10 * a + d) ds acc)%Z).
  { induction ds as [|d ds IH]; intros acc Ha H; [exact Ha|].
    inversion H; subst. cbv beta in *. cbn [fold_left]. apply IH; [lia | assumption]. }
  apply G. lia.
Qed.

Lemma int_digits_nonneg s : forall prev ds,
  int_digits prev s = Some ds -> Forall (fun d => (0 <= d)%Z) ds.
Proof.
  induction s as [|x s IH]; intros prev ds; simpl.
  - destruct prev; [|discriminate]. intros H. inversion H. constructor.
  - destruct (Ascii.eqb x "_").
    + destruct prev; [|discriminate]. apply IH.
    + destruct (digit_val x) as [d|] eqn:Ed; [|discriminate].
      destruct (int_digits true s) as [ds'|] eqn:E; [|discriminate].
      simpl. intros H. inversion H; subst. constructor.
      * eapply digit_val_nonneg; eauto.
      * eapply IH; eauto.
Qed.

Lemma take_digits_nonneg s :
  Forall (fun d => (0 <= d)%Z) (fst (take_digits s)).
Proof.
  induction s as [|x s IH]; [constructor|]. simpl.
  destruct (digit_val x) as [d|] eqn:Ed; [|constructor].
  destruct (take_digits s) as [ds rest]. simpl in *.
  constructor; [eapply digit_val_nonneg; eauto | exact IH].
Qed.

Lemma py_int_nonneg v z :
  all_chars token_char v = true -> py_int v = Some z -> (0 <= z)%Z.
Proof.
  intros Hv. unfold py_int.
  assert (Hd : all_chars (fun c => negb (is_delim c)) (strip_by is_cspace v) = true).
  { apply all_chars_strip. revert Hv. apply all_chars_weaken.
    unfold token_char. intros c H. now apply andb_true_iff in H as [_ H]. }
  pose proof (take_sign_clean _ Hd) as Hs.
  destruct (take_sign _) as [neg body]. simpl in Hs. subst neg.
  destruct (int_digits false body) as [ds|] eqn:E; [|discriminate].
  destruct (_ <=? _)%nat; [|discriminate].
  intros H. inversion H; subst.
  apply Z_of_digits_nonneg. eapply int_digits_nonneg; eauto.
Qed.

Lemma round_aux_not_negative m e l :
  is_negative (binary_round_aux prec emax false m e l) = false.
Proof.
  unfold binary_round_aux.
  destruct (shr_fexp prec emax m e l) as [mrs' e'].
  destruct (shr_fexp prec emax _ e' loc_Exact) as [mrs'' e''].
  destruct (shr_m mrs''); try reflexivity.
  destruct (Z.leb _ _); reflexivity.
Qed.

Lemma float_of_decimal_not_negative m k :
  (0 <= m)%Z -> is_negative (float_of_decimal false m k) = false.
Proof.
  intros Hm. unfold float_of_decimal.
  destruct (m =? 0)%Z; [reflexivity|].
  destruct (0 <=? k)%Z eqn:Ek.
  - apply Z.leb_le in Ek. cbn [cond_Zopp].
    assert (Hp : (0 <= m * 10 ^ k)%Z).
    { apply Z.mul_nonneg_nonneg; [exact Hm|]. apply Z.pow_nonneg. lia. }
    unfold binary_normalize. destruct (m * 10 ^ k)%Z as [|p|p]; [reflexivity| |lia].
    unfold binary_round. destruct (shl_align _ _ _) as [mz ez].
    apply round_aux_not_negative.
  - unfold round_ratio.
    destruct (SFdiv_core_binary prec emax m 0 (10 ^ (- k)) 0) as [[q e] l].
    apply round_aux_not_negative.
Qed.

Lemma drop_underscores_keeps q s : forall prev t,
  all_chars q s = true -> drop_underscores prev s = Some t -> all_chars q t = true.
Proof.
  induction s as [|x s IH]; intros prev t H; simpl.
  - intros E. inversion E. reflexivity.
  - simpl in H. apply andb_true_iff in H as [Hx H].
    destruct (Ascii.eqb x "_").
    + destruct s as [|y s']; [discriminate|].
      destruct (prev && is_digit y); [|discriminate]. now apply IH.
    + destruct (drop_underscores (is_digit x) s) as [t'|] eqn:E; [|discriminate].
      simpl. intros E'. inversion E'; subst. simpl. rewrite Hx.
      eapply IH; eauto.
Qed.

Lemma Z_of_digits_app_nonneg ip fp :
  Forall (fun d => (0 <= d)%Z) ip -> Forall (fun d => (0 <= d)%Z) fp ->
  (0 <= Z_of_digits (ip ++ fp))%Z.
Proof.
  intros H1 H2. apply Z_of_digits_nonneg, Forall_app. now split.
Qed.

Lemma parse_float_body_not_negative s x :
  all_chars (fun c => negb (is_delim c)) s = true ->
  parse_float_body s = Some x -> is_negative x = false.
Proof.
  intros Hs. unfold parse_float_body.
  pose proof (take_sign_clean _ Hs) as Hn.
  destruct (take_sign s) as [neg s1]. simpl in Hn. subst neg.
  destruct (_ || _).
  { intros H. now inversion H. }
  destruct (String.eqb _ "nan").
  { intros H. now inversion H. }
  pose proof (take_digits_nonneg s1) as Hip.
  destruct (take_digits s1) as [ip s2]. simpl in Hip.
  assert (Hfp : forall fp s3,
             match s2 with
             | String c r => if Ascii.eqb c "." then take_digits r else ([], s2)
             | EmptyString => ([], s2)
             end = (fp, s3) -> Forall (fun d => (0 <= d)%Z) fp).
  { intros fp s3 E. destruct s2 as [|c r].
    - inversion E. constructor.
    - destruct (Ascii.eqb c ".").
      + pose proof (take_digits_nonneg r) as G. rewrite E in G. exact G.
      + inversion E. constructor. }
  destruct (match s2 with
            | String c r => if Ascii.eqb c "." then take_digits r else ([], s2)
            | EmptyString => ([], s2)
            end) as [fp s3] eqn:E.
  specialize (Hfp fp s3 eq_refl).
  pose proof (Z_of_digits_app_nonneg ip fp Hip Hfp) as Hm.
  destruct (ip ++ fp)%list as [|d ds] eqn:Eds; [discriminate|].
  destruct s3 as [|c r].
  - intros H. inversion H. now apply float_of_decimal_not_negative.
  - destruct (is_exp_char c); [|discriminate].
    destruct (take_sign r) as [eneg s4].
    destruct (take_digits s4) as [[|e0 ed] [|? ?]]; try discriminate.
    intros H. inversion H. now apply float_of_decimal_not_negative.
Qed.

Lemma py_float_not_negative v x :
  all_chars token_char v = true -> py_float v = Some x -> is_negative x = false.
Proof.
  intros Hv. unfold py_float.
  assert (Hd : all_chars (fun c => negb (is_delim c)) (strip_by is_cspace v) = true).
  { apply all_chars_strip. revert Hv. apply all_chars_weaken.
    unfold token_char. intros c H. now apply andb_true_iff in H as [_ H]. }
  destruct (drop_underscores false _) as [t|] eqn:E; [|discriminate].
  apply parse_float_body_not_negative. eapply drop_underscores_keeps; eauto.
Qed.

(** ** What follows the first delimiter *)

Lemma lstrip_by_app_keep p a c t :
  p c = false -> lstrip_by p (a ++ String c t) = lstrip_by p a ++ String c t.
Proof.
  intros Hc. induction a as [|x a IH]; simpl.
  - now rewrite Hc.
  - destruct (p x); [exact IH | reflexivity].
Qed.

Lemma rstrip_by_app_keep p x c t :
  p c = false -> rstrip_by p (x ++ String c t) = x ++ String c (rstrip_by p t).
Proof.
  intros Hc. induction x as [|a x IH].
  - simpl append. now apply rstrip_by_keep.
  - change (String a x ++ String c t) with (String a (x ++ String c t)).
    cbn [rstrip_by]. rewrite IH.
    destruct x; reflexivity.
Qed.

Lemma strip_lstrip p a : strip_by p (lstrip_by p a) = strip_by p a.
Proof. unfold strip_by. now rewrite lstrip_by_idem. Qed.

(** The reader sees the text before the first delimiter only. *)
Lemma read_value_before_delim a c t ty :
  all_chars (fun x => negb (is_delim x)) a = true -> is_delim c = true ->
  read_value (a ++ String c t) ty = read_value a ty.
Proof.
  intros Ha Hc. unfold read_value.
  pose proof (delim_not_space _ Hc) as Hcs.
  assert (E1 : hd EmptyString (split_by is_delim (strip (a ++ String c t)))
               = lstrip_by is_space a).
  { unfold strip, strip_by.
    rewrite lstrip_by_app_keep by exact Hcs.
    rewrite rstrip_by_app_keep by exact Hcs.
    rewrite split_by_first; [reflexivity | | exact Hc].
    now apply all_chars_lstrip. }
  assert (E2 : hd EmptyString (split_by is_delim (strip a)) = strip a).
  { rewrite split_by_clean; [reflexivity|]. now apply all_chars_strip. }
  rewrite E1, E2. unfold strip. now rewrite strip_lstrip, strip_by_idem.
Qed.

(** A line that is blank or starts with a delimiter gives no value. *)
Lemma read_value_nothing raw ty :
  starts_with_delim raw = true \/ strip raw = EmptyString ->
  read_value raw ty = None.
Proof.
  unfold starts_with_delim, read_value. intros [H|H].
  - destruct (strip raw) as [|c r]; [discriminate|]. simpl. now rewrite H.
  - now rewrite H.
Qed.

End TokenFacts.

Module DictFacts.
Import PyStr PyNum Extractor Spec Notions StrFacts TokenFacts.

Lemma lookup_store_same name content files :
  FileStore.lookup name (FileStore.store name content files) = Some content.
Proof.
  induction files as [|[k v] rest IH]; simpl.
  - now rewrite String.eqb_refl.
  - destruct (String.eqb k name) eqn:E; simpl; now rewrite E.
Qed.

Lemma lookup_store_other name content files other :
  other <> name ->
  FileStore.lookup other (FileStore.store name content files)
  = FileStore.lookup other files.
Proof.
  intros Hne. induction files as [|[k v] rest IH]; simpl.
  - destruct (String.eqb name other) eqn:E; [|reflexivity].
    apply String.eqb_eq in E. congruence.
  - destruct (String.eqb k name) eqn:E; simpl.
    + apply String.eqb_eq in E. subst k.
      destruct (String.eqb name other) eqn:E'; [|reflexivity].
      apply String.eqb_eq in E'. congruence.
    + destruct (String.eqb k other); [reflexivity | exact IH].
Qed.

Lemma lookup_none_keys name files :
  FileStore.lookup name files = None <-> ~ In name (map fst files).
Proof.
  induction files as [|[k v] rest IH]; simpl.
  - split; [intros _ [] | reflexivity].
  - destruct (String.eqb k name) eqn:E.
    + apply String.eqb_eq in E. split; [discriminate | intros H; elim H; now left].
    + apply String.eqb_neq in E. rewrite IH. split.
      * intros H [H'|H']; [congruence | now apply H].
      * intros H H'. apply H. now right.
Qed.

Lemma store_new name content files :
  ~ In name (map fst files) ->
  FileStore.store name content files = (files ++ [(name, content)])%list.
Proof.
  induction files as [|[k v] rest IH]; simpl; [reflexivity|].
  intros H. destruct (String.eqb k name) eqn:E.
  - apply String.eqb_eq in E. elim H. now left.
  - rewrite IH; [reflexivity|]. intros H'. apply H. now right.
Qed.

Lemma store_keys name content files :
  In name (map fst files) ->
  map fst (FileStore.store name content files) = map fst files.
Proof.
  induction files as [|[k v] rest IH]; simpl; [intros []|].
  intros H. destruct (String.eqb k name) eqn:E; [reflexivity|].
  simpl. f_equal. apply IH. destruct H as [H|H]; [|exact H].
  apply String.eqb_neq in E. congruence.
Qed.

Lemma NoDup_snoc {A : Type} (l : list A) x :
  NoDup l -> ~ In x l -> NoDup (l ++ [x]).
Proof.
  induction 1 as [|y l Hy Hl IH]; simpl; intros Hx.
  - constructor; [intros [] | constructor].
  - constructor.
    + rewrite in_app_iff. intros [H|[H|[]]]; [now apply Hy|].
      apply Hx. now left.
    + apply IH. intros H. apply Hx. now right.
Qed.

Lemma store_NoDup name content files :
  NoDup (map fst files) -> NoDup (map fst (FileStore.store name content files)).
Proof.
  intros H. destruct (in_dec string_dec name (map fst files)) as [Hin|Hin].
  - now rewrite store_keys.
  - rewrite store_new by exact Hin. rewrite map_app. simpl.
    now apply NoDup_snoc.
Qed.

(** Storing the items of a dictionary one by one rebuilds it. *)
Lemma fold_add_file items : forall g files,
  NoDup (map fst (files ++ items)%list) ->
  fold_left (fun extractor kv => add_file (fst kv) (snd kv) extractor) items
    (mkExtractor g files)
  = mkExtractor g (files ++ items)%list.
Proof.
  induction items as [|[k v] rest IH]; intros g files H; simpl.
  - now rewrite app_nil_r.
  - unfold add_file at 2. cbn [self_geometry self_files fst snd].
    assert (Hk : ~ In k (map fst files)).
    { rewrite map_app in H. simpl in H. apply NoDup_remove_2 in H.
      intros Hin. apply H. rewrite in_app_iff. now left. }
    rewrite store_new by exact Hk.
    rewrite IH; rewrite <- app_assoc; [reflexivity | exact H].
Qed.

Lemma fold_add_file_geometry items : forall self,
  self_geometry
    (fold_left (fun extractor kv => add_file (fst kv) (snd kv) extractor) items self)
  = self_geometry self.
Proof.
  induction items as [|kv rest IH]; intros self; [reflexivity|].
  simpl. now rewrite IH.
Qed.

(** ** Final path segments *)

Lemma last_split_by_clean p s :
  all_chars (fun c => negb (p c)) (List.last (split_by p s) EmptyString) = true.
Proof.
  induction s as [|x s IH]; [reflexivity|]. simpl.
  destruct (p x) eqn:Hx.
  - destruct (split_by p s) as [|h t] eqn:E; [reflexivity | exact IH].
  - destruct (split_by p s) as [|h t] eqn:E.
    + simpl. now rewrite Hx.
    + destruct t as [|h' t'].
      * simpl in *. now rewrite Hx.
      * exact IH.
Qed.

Lemma basename_idem p : basename (basename p) = basename p.
Proof.
  unfold basename at 1. unfold split_char.
  rewrite split_by_clean; [reflexivity|].
  unfold basename, split_char. apply last_split_by_clean.
Qed.

End DictFacts.

Module PipelineFacts.
Import PyStr PyNum Extractor Spec Notions StrFacts ReadFacts ParserFacts TableFacts.

(** A property of the accumulator that every write of the parsers keeps
    is kept by the parsers. *)
Section Pipeline.

Variable P : Geometry.t -> Prop.

Hypothesis P_numBlades : forall v g, P g -> P (Geometry.set_numBlades v g).
Hypothesis P_tip : forall x g,
  P g -> P (Geometry.set_blades_length x (Geometry.set_rotorDiameter (twice x) g)).
Hypothesis P_radius : forall v g, P g -> P (Geometry.set_radius v g).
Hypothesis P_precone : forall v g, P g -> P (Geometry.set_precone v g).
Hypothesis P_overhang : forall v g, P g -> P (Geometry.set_overhang v g).
Hypothesis P_shaftTilt : forall v g, P g -> P (Geometry.set_shaftTilt v g).
Hypothesis P_height : forall x g, P g -> P (Geometry.set_height x g).
Hypothesis P_base : forall x g, P g -> P (Geometry.set_baseElevation x g).
Hypothesis P_blade : forall c g, P g -> P (snd (parse_blade_file c g)).
Hypothesis P_tower : forall c g, P g -> P (snd (parse_tower_file c g)).
Hypothesis P_hub : forall h ht off g,
  P g -> P (Geometry.add_warning (hub_height_message h ht off)
              (Geometry.set_hubHeight h g)).
Hypothesis P_missing : forall f g,
  P g -> P (Geometry.add_warning ("EDFile '" ++ f ++ "' not found") g).
Hypothesis P_read : forall l g, In l labels -> P g -> P (Geometry.add_read l g).

Lemma pipeline_ed_step files raw st :
  P (ed_geometry st) -> P (ed_geometry (ed_step files raw st)).
Proof.
  intros H. unfold ed_step.
  destruct (classify (strip raw));
    repeat match goal with
    | |- context [match read_value ?l ?ty with _ => _ end] =>
        destruct (read_value l ty)
    | |- context [if float_truthy ?x then _ else _] => destruct (float_truthy x)
    | |- context [match usable ?c with _ => _ end] => destruct (usable c)
    end;
    cbn [ed_with ed_geometry]; auto.
Qed.

Lemma pipeline_ed_loop files lines st :
  P (ed_geometry st) -> P (ed_geometry (ed_loop files lines st)).
Proof.
  unfold ed_loop. revert st.
  induction lines as [|l ls IH]; intros st H; [exact H|].
  simpl. apply IH. now apply pipeline_ed_step.
Qed.

Lemma pipeline_ed_finish st : P (ed_geometry st) -> P (ed_finish st).
Proof.
  intros H. unfold ed_finish.
  apply P_read; [right; left; reflexivity|].
  destruct (tower_ht st); [|exact H]. now apply P_hub.
Qed.

Lemma pipeline_elastodyn files content g :
  P g -> P (snd (parse_elastodyn_file files content g)).
Proof.
  intros H. unfold parse_elastodyn_file. cbn [snd].
  apply pipeline_ed_finish, pipeline_ed_loop. exact H.
Qed.

Lemma pipeline_main_step files line st :
  P (main_geometry st) -> P (main_geometry (main_step files line st)).
Proof.
  intros H. unfold main_step.
  destruct (is_skipped line); [exact H|].
  destruct (is_ed_reference line).
  - destruct (usable _); cbn [main_geometry].
    + now apply pipeline_elastodyn.
    + destruct (named _); cbn [main_geometry]; [now apply P_missing | exact H].
  - destruct (is_aero_reference line); [|exact H].
    destruct (usable _); cbn [main_geometry]; [|exact H].
    unfold parse_aerodyn_file. cbn [snd].
    apply P_read; [|exact H]. simpl. tauto.
Qed.

Lemma pipeline_main_loop files lines st :
  P (main_geometry st) -> P (main_geometry (main_loop files lines st)).
Proof.
  unfold main_loop. revert st.
  induction lines as [|l ls IH]; intros st H; [exact H|].
  simpl. apply IH. now apply pipeline_main_step.
Qed.

Hypothesis P_no_ed : forall g, P g -> P (Geometry.add_warning no_ed_warning g).

Lemma pipeline_main files content g :
  P g -> P (snd (parse_main_file files content g)).
Proof.
  intros H. unfold parse_main_file. cbn [snd].
  apply P_read; [now left|].
  set (st := main_loop files (lines_of content) (mkMain g false false)).
  assert (Hst : P (main_geometry st)) by now apply pipeline_main_loop.
  destruct (found_ed st); [exact Hst | now apply P_no_ed].
Qed.

End Pipeline.

(** ** The accumulator only grows *)

Lemma grows_refl allowed g : grows allowed g g.
Proof.
  repeat split; exists []; rewrite app_nil_r; split; (reflexivity || constructor).
Qed.

Lemma grows_warning (allowed : string -> Prop) g0 g w :
  allowed w -> grows allowed g0 g -> grows allowed g0 (Geometry.add_warning w g).
Proof.
  intros Hw (He & (ws & Hws & Hall) & Hf). split; [exact He|]. split; [|exact Hf].
  exists (ws ++ [w])%list. cbn. rewrite Hws, app_assoc. split; [reflexivity|].
  apply Forall_app. split; [exact Hall | now constructor].
Qed.

Lemma grows_read allowed g0 g l :
  In l labels -> grows allowed g0 g -> grows allowed g0 (Geometry.add_read l g).
Proof.
  intros Hl (He & Hw & (fs & Hfs & Hall)). split; [exact He|]. split; [exact Hw|].
  exists (fs ++ [l])%list. cbn. rewrite Hfs, app_assoc. split; [reflexivity|].
  apply Forall_app. split; [exact Hall | now constructor].
Qed.

Lemma grows_blade (allowed : string -> Prop) g0 c g :
  (forall n, allowed ("Parsed " ++ str_of_nat n ++ " blade stations")) ->
  grows allowed g0 g -> grows allowed g0 (snd (parse_blade_file c g)).
Proof.
  intros Ha H. unfold parse_blade_file.
  destruct (blade_rows _ _ _) as [|s l] eqn:E; [exact H|]. cbn [snd].
  apply grows_warning; [apply Ha|].
  apply grows_read; [simpl; tauto|]. exact H.
Qed.

Lemma grows_tower (allowed : string -> Prop) g0 c g :
  (forall n, allowed ("Parsed " ++ str_of_nat n ++ " tower stations")) ->
  grows allowed g0 g -> grows allowed g0 (snd (parse_tower_file c g)).
Proof.
  intros Ha H. unfold parse_tower_file.
  destruct (tower_rows _ _ _) as [|s l] eqn:E; [exact H|]. cbn [snd].
  apply grows_warning; [apply Ha|].
  apply grows_read; [simpl; tauto|]. exact H.
Qed.

Lemma grows_weaken (a1 a2 : string -> Prop) g g' :
  (forall w, a1 w -> a2 w) -> grows a1 g g' -> grows a2 g g'.
Proof.
  intros Ha (He & (ws & Hws & Hall) & Hf). split; [exact He|]. split; [|exact Hf].
  exists ws. split; [exact Hws|]. revert Hall. apply Forall_impl. exact Ha.
Qed.

Lemma grows_elastodyn files content g0 g :
  grows loop_warning g0 g ->
  grows loop_warning g0 (snd (parse_elastodyn_file files content g)).
Proof.
  apply pipeline_elastodyn; intros; try assumption.
  - now apply grows_blade; [constructor|].
  - now apply grows_tower; [constructor|].
  - apply grows_warning; [constructor|]. assumption.
  - now apply grows_read.
Qed.

Lemma grows_main_loop files lines g0 st :
  grows loop_warning g0 (main_geometry st) ->
  grows loop_warning g0 (main_geometry (main_loop files lines st)).
Proof.
  apply pipeline_main_loop; intros; try assumption.
  - now apply grows_blade; [constructor|].
  - now apply grows_tower; [constructor|].
  - apply grows_warning; [constructor|]. assumption.
  - apply grows_warning; [constructor|]. assumption.
  - now apply grows_read.
Qed.

Lemma grows_main files content g :
  grows known_warning g (snd (parse_main_file files content g)).
Proof.
  assert (L : forall w, loop_warning w -> known_warning w) by (intros; now left).
  apply pipeline_main with (P := grows known_warning g);
    intros; try assumption.
  - now apply grows_blade; [intros; apply L; constructor|].
  - now apply grows_tower; [intros; apply L; constructor|].
  - apply grows_warning; [apply L; constructor|]. assumption.
  - apply grows_warning; [apply L; constructor|]. assumption.
  - now apply grows_read.
  - apply grows_warning; [now right|]. assumption.
  - apply grows_refl.
Qed.

Lemma loop_warning_other w : loop_warning w -> w <> no_ed_warning.
Proof.
  intros H. inversion H; subst; unfold hub_height_message, no_ed_warning;
    cbn [append]; discriminate.
Qed.

(** ** Stations *)

Lemma good_stations_blade c g :
  good_stations g -> good_stations (snd (parse_blade_file c g)).
Proof.
  intros [Hb Ht]. unfold parse_blade_file.
  destruct (blade_rows _ _ _) as [|s l] eqn:E; [now split|]. cbn [snd].
  split; [|exact Ht]. cbn. intros l' H. inversion H. discriminate.
Qed.

Lemma good_stations_tower c g :
  good_stations g -> good_stations (snd (parse_tower_file c g)).
Proof.
  intros [Hb Ht]. unfold parse_tower_file.
  pose proof (tower_rows_before_table (lines_of c) []) as Hrows.
  destruct (tower_rows _ _ _) as [|s l] eqn:E; [now split|]. cbn [snd].
  split; [exact Hb|]. cbn. intros l' H. inversion H; subst.
  split; [discriminate|]. rewrite Hrows. simpl. apply tower_table_in_unit.
Qed.

Lemma good_stations_main files content g :
  good_stations g -> good_stations (snd (parse_main_file files content g)).
Proof.
  apply pipeline_main; intros; try assumption.
  - now apply good_stations_blade.
  - now apply good_stations_tower.
Qed.

(** ** Rotor diameter and blade length *)

Lemma diameter_main files content g :
  diameter_is_twice_length g ->
  diameter_is_twice_length (snd (parse_main_file files content g)).
Proof.
  apply pipeline_main; unfold diameter_is_twice_length; intros; try assumption.
  - reflexivity.
  - now rewrite blade_config, blade_length.
  - now rewrite tower_config, tower_blades.
Qed.

End PipelineFacts.

Module RunFacts.
Import PyStr PyNum Extractor Spec Notions.
Import StrFacts ReadFacts ParserFacts ScalarFacts TableFacts TokenFacts DictFacts PipelineFacts.

(** ** Lists *)

Lemma last_of_snoc {A : Type} (l : list A) x : last_of (l ++ [x]) = Some x.
Proof. unfold last_of. now rewrite rev_app_distr. Qed.

Lemma last_of_split {A : Type} (l : list A) x :
  last_of l = Some x -> exists l', l = (l' ++ [x])%list.
Proof.
  unfold last_of. destruct (rev l) as [|y r] eqn:E; [discriminate|].
  intros H. inversion H; subst. exists (rev r).
  rewrite <- (rev_involutive l), E. reflexivity.
Qed.

Lemma successes_app {A : Type} (l1 l2 : list (option A)) :
  successes (l1 ++ l2) = (successes l1 ++ successes l2)%list.
Proof.
  induction l1 as [|[x|] l1 IH]; simpl; [reflexivity | now rewrite IH | exact IH].
Qed.

Lemma last_nonzero_read l ht :
  last_of l = Some (Some ht) -> float_truthy ht = true ->
  last_of (filter float_truthy (successes l)) = Some ht.
Proof.
  intros H Ht. apply last_of_split in H as [l' ->].
  rewrite successes_app, filter_app. simpl. rewrite Ht. apply last_of_snoc.
Qed.

Lemma flat_map_length_le {A B : Type} (f : A -> list B) l :
  (forall x, List.length (f x) <= 1)%nat ->
  (List.length (flat_map f l) <= List.length l)%nat.
Proof.
  intros Hf. induction l as [|x l IH]; simpl; [lia|].
  rewrite length_app. specialize (Hf x). lia.
Qed.

Lemma after_header_length is_header lines :
  (List.length (after_header is_header lines) <= List.length lines)%nat.
Proof.
  induction lines as [|l ls IH]; simpl; [lia|].
  destruct (is_header l); lia.
Qed.

Lemma until_length stop lines :
  (List.length (until stop lines) <= List.length lines)%nat.
Proof.
  induction lines as [|l ls IH]; simpl; [lia|].
  destruct (stop l); simpl; lia.
Qed.

Lemma until_app_stop stop l1 x l2 :
  stop x = true -> until stop (l1 ++ x :: l2) = until stop l1.
Proof.
  intros Hx. induction l1 as [|y l1 IH]; simpl.
  - now rewrite Hx.
  - destruct (stop y); [reflexivity | now rewrite IH].
Qed.

Lemma blade_row_length line : (List.length (blade_row line) <= 1)%nat.
Proof.
  unfold blade_row. destruct (is_blade_header line); [simpl; lia|].
  destruct (is_row line); [|simpl; lia].
  destruct (blade_station _); simpl; lia.
Qed.

Lemma tower_row_length line : (List.length (tower_row line) <= 1)%nat.
Proof.
  unfold tower_row. destruct (tower_value line) as [[h|]|]; try (simpl; lia).
  destruct (in_unit_interval h); simpl; lia.
Qed.

(** ** Stations written by the structural loop *)

Ltac stations_step :=
  intros; unfold blade_write, tower_write, ed_step;
  match goal with
  | |- context [classify ?l] => destruct (classify l)
  end;
  cbn [keyword_eqb];
  repeat match goal with
  | |- context [match usable ?c with _ => _ end] => destruct (usable c)
  | |- context [match read_value ?l ?ty with _ => _ end] =>
      destruct (read_value l ty)
  | |- context [if float_truthy ?x then _ else _] => destruct (float_truthy x)
  end;
  cbn [ed_with ed_geometry];
  unfold parse_blade_file, parse_tower_file;
  repeat match goal with
  | |- context [blade_rows ?l ?b ?s] => destruct (blade_rows l b s)
  | |- context [tower_rows ?l ?b ?s] => destruct (tower_rows l b s)
  end;
  reflexivity.

Lemma step_blades_stations files raw st :
  Geometry.blades_stations (Geometry.blades (ed_geometry (ed_step files raw st)))
  = match blade_write files raw with
    | Some v => Some v
    | None => Geometry.blades_stations (Geometry.blades (ed_geometry st))
    end.
Proof. stations_step. Qed.

Lemma step_tower_stations files raw st :
  Geometry.tower_stations (Geometry.tower (ed_geometry (ed_step files raw st)))
  = match tower_write files raw with
    | Some v => Some v
    | None => Geometry.tower_stations (Geometry.tower (ed_geometry st))
    end.
Proof. stations_step. Qed.

(** ** The structural reference of the main file *)

Lemma main_step_found files line st :
  found_ed (main_step files line st) = found_ed st || resolves_ed files line.
Proof.
  unfold main_step, resolves_ed.
  destruct (is_skipped line); cbn [negb andb]; [now rewrite orb_false_r|].
  destruct (is_ed_reference line); cbn [andb].
  - destruct (usable _); cbn [found_ed]; [now rewrite orb_true_r|].
    destruct (named _); cbn [found_ed]; now rewrite orb_false_r.
  - rewrite orb_false_r.
    destruct (is_aero_reference line); [|reflexivity].
    destruct (usable _); reflexivity.
Qed.

Lemma main_loop_found files lines st :
  found_ed (main_loop files lines st)
  = found_ed st || existsb (resolves_ed files) lines.
Proof.
  unfold main_loop. revert st.
  induction lines as [|l ls IH]; intros st; simpl; [now rewrite orb_false_r|].
  now rewrite IH, main_step_found, orb_assoc.
Qed.

Lemma grows_label allowed g g' l :
  grows allowed g g' -> In l (Geometry.filesRead g) -> In l (Geometry.filesRead g').
Proof.
  intros (_ & _ & (fs & Hfs & _)) H. rewrite Hfs, in_app_iff. now left.
Qed.

Lemma elastodyn_label files content g :
  In "ElastoDyn" (Geometry.filesRead (snd (parse_elastodyn_file files content g))).
Proof.
  unfold parse_elastodyn_file, ed_finish. cbn [snd Geometry.add_read Geometry.filesRead].
  rewrite in_app_iff. right. now left.
Qed.

Lemma main_loop_label files lines : forall st,
  existsb (resolves_ed files) lines = true ->
  In "ElastoDyn" (Geometry.filesRead (main_geometry (main_loop files lines st))).
Proof.
  induction lines as [|l ls IH]; intros st; simpl; [discriminate|].
  destruct (resolves_ed files l) eqn:E; cbn [orb].
  - intros _. unfold main_loop. simpl. fold (main_loop files ls (main_step files l st)).
    apply (grows_label loop_warning (main_geometry (main_step files l st))).
    + apply grows_main_loop, grows_refl.
    + unfold resolves_ed in E. unfold main_step.
      destruct (is_skipped l); [discriminate|].
      destruct (is_ed_reference l); [|discriminate].
      destruct (usable _); [|discriminate]. cbn [main_geometry].
      apply elastodyn_label.
  - intros H. unfold main_loop. simpl. apply (IH _ H).
Qed.

(** A line that is no resolving structural reference writes no field. *)
Lemma main_step_fields files line st :
  resolves_ed files line = false ->
  Geometry.config (main_geometry (main_step files line st))
  = Geometry.config (main_geometry st)
  /\ Geometry.blades (main_geometry (main_step files line st))
     = Geometry.blades (main_geometry st)
  /\ Geometry.tower (main_geometry (main_step files line st))
     = Geometry.tower (main_geometry st)
  /\ Geometry.hub (main_geometry (main_step files line st))
     = Geometry.hub (main_geometry st).
Proof.
  unfold resolves_ed, main_step.
  destruct (is_skipped line); [auto|]. cbn [negb andb].
  destruct (is_ed_reference line); cbn [andb].
  - destruct (usable _); [discriminate|]. intros _.
    destruct (named _); cbn; auto.
  - intros _. destruct (is_aero_reference line); [|auto].
    destruct (usable _); cbn; auto.
Qed.

Lemma main_loop_fields files lines : forall st,
  existsb (resolves_ed files) lines = false ->
  Geometry.config (main_geometry (main_loop files lines st))
  = Geometry.config (main_geometry st)
  /\ Geometry.blades (main_geometry (main_loop files lines st))
     = Geometry.blades (main_geometry st)
  /\ Geometry.tower (main_geometry (main_loop files lines st))
     = Geometry.tower (main_geometry st)
  /\ Geometry.hub (main_geometry (main_loop files lines st))
     = Geometry.hub (main_geometry st).
Proof.
  unfold main_loop.
  induction lines as [|l ls IH]; intros st H; [auto|].
  simpl in H. apply orb_false_iff in H as [Hl Hls]. simpl.
  destruct (IH (main_step files l st) Hls) as (Hc & Hb & Ht & Hh).
  destruct (main_step_fields files l st Hl) as (Hc' & Hb' & Ht' & Hh').
  rewrite Hc, Hb, Ht, Hh. auto.
Qed.

(** ** Letter case *)

Lemma upper_char_upper c : upper_char (upper_char c) = upper_char c.
Proof.
  destruct c as [[] [] [] [] [] [] [] []]; reflexivity.
Qed.

Lemma upper_char_lower c : upper_char (lower_char c) = upper_char c.
Proof.
  destruct c as [[] [] [] [] [] [] [] []]; reflexivity.
Qed.

Lemma upper_upper s : upper (upper s) = upper s.
Proof.
  unfold upper. induction s as [|c s IH]; simpl; [reflexivity|].
  now rewrite upper_char_upper, IH.
Qed.

Lemma upper_lower s : upper (lower s) = upper s.
Proof.
  unfold upper, lower. induction s as [|c s IH]; simpl; [reflexivity|].
  now rewrite upper_char_lower, IH.
Qed.

End RunFacts.

(** The primitives on a few inputs, with the results of CPython. *)
Module Checks.

Import PyStr PyNum Extractor.

Example split_ws_runs : split_ws "  a bc   d " = ["a"; "bc"; "d"].
Proof. reflexivity. Qed.

Example split_delims : split_by is_delim "a!b-c" = ["a"; "b"; "c"].
Proof. reflexivity. Qed.

Example basename_path : basename "data/x/Blade1.dat" = "Blade1.dat".
Proof. reflexivity. Qed.

Example float_tenth :
  py_float "0.1" = Some (S754_finite false 7205759403792794 (-56)).
Proof. reflexivity. Qed.

Example float_ties_to_even :
  py_float "9007199254740993" = Some (S754_finite false 4503599627370496 1).
Proof. reflexivity. Qed.

Example float_overflow : py_float "1e400" = Some (S754_infinity false).
Proof. reflexivity. Qed.

Example float_rejects : map py_float ["NumBl"; "1e"; "."; "1_"] = [None; None; None; None].
Proof. reflexivity. Qed.

Example int_accepts : map py_int ["3"; "+0_07"; " 12 "] = [Some 3%Z; Some 7%Z; Some 12%Z].
Proof. reflexivity. Qed.

Example int_rejects : map py_int ["3.0"; "NumBl"; ""] = [None; None; None].
Proof. reflexivity. Qed.

Example repr_shortest :
  option_map float_repr (py_float "0.30000000000000004") = Some "0.30000000000000004"
  /\ option_map float_repr (py_float "85") = Some "85.0"
  /\ option_map float_repr (py_float "1e16") = Some "1e+16"
  /\ option_map float_repr (py_float "0.00001") = Some "1e-05".
Proof. repeat split. Qed.

Example unit_interval :
  map in_unit_interval
    [float_of_Z 0; float_of_Z 1; float_of_decimal false 5 (-1);
     float_of_decimal false 15 (-1); float_of_Z (-1); S754_nan; S754_infinity false]
  = [true; true; true; false; false; false; false].
Proof. reflexivity. Qed.

(** The reader cuts a negative number at its sign. *)
Example read_negative : read_value "-5.0 PreCone" TFloat = None.
Proof. reflexivity. Qed.

End Checks.

(* ===================================================================== *)
(** * The claims of the specification *)
(* ===================================================================== *)

Module Claims.

Import PyStr PyNum Extractor Spec Examples.
Import StrFacts ReadFacts ParserFacts ScalarFacts StoreFacts MainFacts.

(** C1.  For every file store and accumulator the aggregator returns a
    record [{success, geometry}] whose geometry is the accumulator after
    the run: with the error appended, or as the main-file parser left it.
    When no stored name ends with [.fst], the error is appended and
    [success] is false, with no parsing.  Otherwise, with [content] the
    first stored file whose name ends with [.fst], [success] is true
    exactly when the parse of [content] reports success and the returned
    list of errors is empty; the parse is run when [content] is not empty,
    and an empty [content] is answered like a missing main file.  The
    warnings of the accumulator never affect [success]: it is the same
    whatever they are, and a run that starts without errors and parses a
    main file succeeds whatever warnings it records. *)
Theorem C1_aggregator (self : GeometryExtractor) :
  let files := self_files self in
  let g := self_geometry self in
  let r := extract_geometry self in
  (r = not_found g \/ exists content, r = parsed files content g)
  /\ (no_fst files = true -> r = not_found g)
  /\ (forall name content,
        first_fst files name content ->
        (success r = true <->
         fst (parse_main_file files content g) = true
         /\ Geometry.errors (geometry r) = [])
        /\ r = if truthy content then parsed files content g else not_found g)
  /\ (forall w,
        success (extract_geometry (mkExtractor (with_warnings w g) files))
        = success r)
  /\ (forall name content,
        first_fst files name content -> truthy content = true ->
        Geometry.errors g = [] ->
        success r = true /\ Geometry.errors (geometry r) = []).
Proof.
  intros files g r.
  assert (Hfirst : forall name content,
             first_fst files name content ->
             r = if truthy content then parsed files content g else not_found g).
  { intros name content H. subst r. unfold extract_geometry. fold files g.
    rewrite (find_main_first _ _ _ H). simpl usable.
    destruct (truthy content); [|reflexivity].
    unfold parsed. now destruct (parse_main_file files content g). }
  split; [|split; [|split; [|split]]].
  - subst r. unfold extract_geometry. fold files g.
    destruct (usable (find_main files)) as [c|]; [right; exists c | now left].
    unfold parsed. now destruct (parse_main_file files c g).
  - intros H. subst r. unfold extract_geometry. fold files g.
    now rewrite (find_main_no_fst _ H).
  - intros name content H. split; [|exact (Hfirst name content H)].
    rewrite (Hfirst name content H).
    destruct (truthy content).
    + unfold parsed. cbn [success geometry]. unfold no_errors.
      rewrite andb_true_iff.
      destruct (Geometry.errors _); split; intros [? ?]; split;
        (reflexivity || assumption || discriminate).
    + unfold not_found. cbn [success geometry Geometry.add_error Geometry.errors].
      split; [discriminate|]. intros [_ H'].
      apply app_eq_nil in H' as [_ H']. discriminate H'.
  - intros w. subst r. rewrite !success_extract. cbn [self_files self_geometry].
    fold files. destruct (usable _); reflexivity.
  - intros name content H Hc He. rewrite (Hfirst name content H), Hc.
    unfold parsed. cbn [success geometry]. unfold no_errors.
    now rewrite main_ok, main_errors, He.
Qed.

Lemma C1_aggregator_witness :
  (first_fst [("main.fst", "x AeroFile")] "main.fst" "x AeroFile"
   /\ success (extract_geometry
                 (mkExtractor Geometry.empty [("main.fst", "x AeroFile")])) = true)
  /\ (no_fst [("notes.txt", "x")] = true
      /\ extract_geometry (mkExtractor Geometry.empty [("notes.txt", "x")])
         = not_found Geometry.empty).
Proof.
  assert (H : first_fst [("main.fst", "x AeroFile")] "main.fst" "x AeroFile").
  { exists [], []. repeat split. }
  split; split.
  - exact H.
  - destruct (C1_aggregator (mkExtractor Geometry.empty [("main.fst", "x AeroFile")]))
      as (_ & _ & Hparse & _).
    destruct (Hparse "main.fst" "x AeroFile" H) as [Hiff _].
    apply Hiff. split; reflexivity.
  - reflexivity.
  - destruct (C1_aggregator (mkExtractor Geometry.empty [("notes.txt", "x")]))
      as (_ & Hnone & _).
    exact (Hnone eq_refl).
Defined.

(** C2.  For every file store and requested name, [get_file] returns what
    the three rules of the specification return, tried in order: (a) the
    stored key equal to the request, (b) the stored key equal to the final
    path segment of the request, (c) the first stored key whose final path
    segment equals that of the request; it returns [None] exactly when no
    stored key matches under any rule, and it is a total function.  With
    only [Blade1.dat] stored, the request [data/Blade1.dat] misses rule (a)
    and gets the content by rule (b). *)
Theorem C2_get_file (files : FileStore.t) (filepath content : string) :
  get_file files filepath = resolve_spec files filepath
  /\ (get_file files filepath = None <-> no_key_matches files filepath)
  /\ rule_exact [("Blade1.dat", content)] "data/Blade1.dat" = None
  /\ rule_segment [("Blade1.dat", content)] "data/Blade1.dat" = Some content
  /\ get_file [("Blade1.dat", content)] "data/Blade1.dat" = Some content.
Proof.
  split; [apply get_file_spec|].
  split; [apply get_file_none|].
  repeat split.
Qed.

(** C3.  In the tower table, once the header was seen, a row whose first
    token is not a float ends the loop at once, and so does a row whose
    first token is a float outside [0, 1], which is not recorded: the
    stations collected so far are the result, whatever follows.  A table
    with the rows [0.0], [0.5], [1.5] gives exactly the two stations 0.0
    and 0.5, in this order, and the warning that reports 2 stations, also
    when more rows follow. *)
Theorem C3_tower_stops_at_bad_row :
  (forall line rest stations p0 ps,
      contains "HTFRACT" (upper line) = false ->
      is_row line = true ->
      split_ws (drop_comment line) = p0 :: ps ->
      (py_float p0 = None ->
       tower_rows (line :: rest) true stations = stations)
      /\ (forall h, py_float p0 = Some h -> in_unit_interval h = false ->
          tower_rows (line :: rest) true stations = stations))
  /\ (forall rest,
        tower_rows ([tower_header; "0.0"; "0.5"; "1.5"] ++ rest)%list false []
        = [Geometry.mkTowerStation f0; Geometry.mkTowerStation f_half])
  /\ (forall g,
        let r := snd (parse_tower_file
                        (unlines [tower_header; "0.0"; "0.5"; "1.5"]) g) in
        Geometry.tower_stations (Geometry.tower r)
        = Some [Geometry.mkTowerStation f0; Geometry.mkTowerStation f_half]
        /\ Geometry.warnings r
           = (Geometry.warnings g ++ ["Parsed 2 tower stations"])%list).
Proof.
  split; [|split].
  - intros line rest stations p0 ps Hh Hrow Hparts.
    assert (Hrule : startswith "---" (strip line) = false).
    { unfold is_row in Hrow. apply andb_true_iff in Hrow as [_ H].
      now apply negb_true_iff in H. }
    split.
    + intros Hp. cbn [tower_rows]. cbn [andb].
      now rewrite Hrule, Hh, Hrow, Hparts, Hp.
    + intros h Hp Hout. cbn [tower_rows]. cbn [andb].
      now rewrite Hrule, Hh, Hrow, Hparts, Hp, Hout.
  - intros rest. reflexivity.
  - intros g. split; reflexivity.
Qed.

Lemma C3_tower_stops_at_bad_row_witness :
  tower_rows ["abc 1.0"; "0.7"] true [Geometry.mkTowerStation f0]
  = [Geometry.mkTowerStation f0]
  /\ tower_rows ["1.5"; "0.7"] true [Geometry.mkTowerStation f0]
     = [Geometry.mkTowerStation f0].
Proof.
  split.
  - apply (proj1 (proj1 C3_tower_stops_at_bad_row "abc 1.0" ["0.7"]
                    [Geometry.mkTowerStation f0] "abc" ["1.0"]
                    eq_refl eq_refl eq_refl)).
    reflexivity.
  - apply (proj2 (proj1 C3_tower_stops_at_bad_row "1.5" ["0.7"]
                    [Geometry.mkTowerStation f0] "1.5" []
                    eq_refl eq_refl eq_refl)
             (float_of_decimal false 15 (-1))); reflexivity.
Defined.

(** C4.  In the blade table, once the header was seen, a row with fewer
    than three tokens, or one of whose first three tokens is not a float,
    is skipped and the loop goes on with the next line.  A table with the
    rows [0.0 0.0 5.0], [x y z], [1.0 0.0 -2.0] gives exactly two
    stations, in file order. *)
Theorem C4_blade_skips_bad_row :
  (forall line rest stations,
      contains "BLFRACT" (upper line) = false ->
      is_row line = true ->
      ((List.length (split_ws (drop_comment line)) < 3)%nat ->
       blade_rows (line :: rest) true stations = blade_rows rest true stations)
      /\ (forall p0 p1 p2 ps,
            split_ws (drop_comment line) = p0 :: p1 :: p2 :: ps ->
            py_float p0 = None \/ py_float p1 = None \/ py_float p2 = None ->
            blade_rows (line :: rest) true stations = blade_rows rest true stations))
  /\ (forall g,
        let lines := [blade_header; "0.0 0.0 5.0"; "x y z"; "1.0 0.0 -2.0"] in
        let r := snd (parse_blade_file (unlines lines) g) in
        blade_rows lines false []
        = [Geometry.mkBladeStation f0 f0 f5; Geometry.mkBladeStation f1 f0 f_minus2]
        /\ Geometry.blades_stations (Geometry.blades r)
           = Some [Geometry.mkBladeStation f0 f0 f5;
                   Geometry.mkBladeStation f1 f0 f_minus2]
        /\ Geometry.warnings r
           = (Geometry.warnings g ++ ["Parsed 2 blade stations"])%list).
Proof.
  split.
  - intros line rest stations Hh Hrow. split.
    + intros Hlen. cbn [blade_rows]. rewrite Hh, Hrow. cbn [andb].
      apply Nat.leb_gt in Hlen. now rewrite Hlen.
    + intros p0 p1 p2 ps Hparts Hbad. cbn [blade_rows].
      rewrite Hh, Hrow, Hparts. cbn [andb blade_station].
      destruct (3 <=? _)%nat; [|reflexivity].
      destruct Hbad as [H | [H | H]]; rewrite H;
        repeat match goal with
        | |- context [match py_float ?p with _ => _ end] => destruct (py_float p)
        end; reflexivity.
  - intros g. repeat split.
Qed.

Lemma C4_blade_skips_bad_row_witness :
  blade_rows ["0.5 1.0"; "1.0 0.0 -2.0"] true [] = blade_rows ["1.0 0.0 -2.0"] true []
  /\ blade_rows ["x y z"; "1.0 0.0 -2.0"] true [] = blade_rows ["1.0 0.0 -2.0"] true [].
Proof.
  split.
  - apply (proj1 (proj1 C4_blade_skips_bad_row "0.5 1.0" ["1.0 0.0 -2.0"] []
                    eq_refl eq_refl)).
    simpl. lia.
  - apply (proj2 (proj1 C4_blade_skips_bad_row "x y z" ["1.0 0.0 -2.0"] []
                    eq_refl eq_refl) "x" "y" "z" [] eq_refl).
    left. reflexivity.
Defined.

(** C5, as stated, fails: on [NumBl 3 ! 3 blades] the reader takes the
    first token, [NumBl], which is not an integer, and returns [None]; on
    [TipRad 50.0 -] it returns [None] as well and no field is written. *)
Lemma C5_counterexample :
  read_value "NumBl 3 ! 3 blades" TInt <> Some 3%Z
  /\ Geometry.rotorDiameter
       (Geometry.config (snd (parse_elastodyn_file [] "TipRad 50.0 -" Geometry.empty)))
     <> Some f100.
Proof. split; discriminate. Qed.

(** C5 (amended).  The reader takes the first token of the line, so the
    value comes first: reading [3 NumBl ! 3 blades] with integer coercion
    yields 3, and the structural parser on [50.0 TipRad -] sets
    [config.rotorDiameter] to 100.0 and [blades.length] to 50.0. *)
Theorem C5_value_first (files : FileStore.t) (g : Geometry.t) :
  read_value "3 NumBl ! 3 blades" TInt = Some 3%Z
  /\ read_value "50.0 TipRad -" TFloat = Some f50
  /\ Geometry.rotorDiameter
       (Geometry.config (snd (parse_elastodyn_file files "50.0 TipRad -" g)))
     = Some f100
  /\ Geometry.blades_length
       (Geometry.blades (snd (parse_elastodyn_file files "50.0 TipRad -" g)))
     = Some f50.
Proof. repeat split. Qed.

(** C6, as stated, fails: on the lines [TowerHt 80.0] and [Twr2Shft 5.0]
    the reader returns [None] (the first token is the keyword), so no hub
    height is set and no warning is recorded. *)
Lemma C6_counterexample :
  Geometry.hubHeight
    (Geometry.config
       (snd (parse_elastodyn_file [] (unlines ["TowerHt 80.0"; "Twr2Shft 5.0"])
               Geometry.empty)))
  <> Some f85
  /\ Geometry.warnings
       (snd (parse_elastodyn_file [] (unlines ["TowerHt 80.0"; "Twr2Shft 5.0"])
               Geometry.empty)) = [].
Proof. split; [discriminate | reflexivity]. Qed.

(** C6 (amended).  With the value first: after the structural parser scans
    the lines [80.0 TowerHt] and [5.0 Twr2Shft], [config.hubHeight] is 85.0
    and the warning cites both inputs; after [80.0 TowerHt] alone,
    [config.hubHeight] is 80.0 and the offset term of the warning reads 0.
    In general, when the last tower-height line of a file is read as [ht],
    the hub height is [ht] plus the value of the last offset line, if that
    was read, and the last warning is the message that prints the hub
    height, [ht] and the offset, or 0 for an offset that is missing or
    zero. *)
Theorem C6_hub_height (files : FileStore.t) (g : Geometry.t) :
  (let r := snd (parse_elastodyn_file files
                   (unlines ["80.0 TowerHt"; "5.0 Twr2Shft"]) g) in
   Geometry.hubHeight (Geometry.config r) = Some f85
   /\ Geometry.warnings r
      = (Geometry.warnings g
         ++ ["Hub height calculated: 85.0m (TowerHt=80.0 + Twr2Shft=5.0)"])%list)
  /\ (let r := snd (parse_elastodyn_file files "80.0 TowerHt" g) in
      Geometry.hubHeight (Geometry.config r) = Some f80
      /\ Geometry.warnings r
         = (Geometry.warnings g
            ++ ["Hub height calculated: 80.0m (TowerHt=80.0 + Twr2Shft=0)"])%list)
  /\ (forall content ht,
        last_of (reads TowerHt TFloat (lines_of content)) = Some (Some ht) ->
        let r := snd (parse_elastodyn_file files content g) in
        let off := match last_of (reads Twr2Shft TFloat (lines_of content)) with
                   | Some v => v
                   | None => None
                   end in
        let hub_height := match off with Some x => fadd ht x | None => ht end in
        Geometry.hubHeight (Geometry.config r) = Some hub_height
        /\ last_of (Geometry.warnings r) = Some (hub_height_message hub_height ht off)
        /\ (off = None ->
            hub_height_message hub_height ht off
            = "Hub height calculated: " ++ float_repr ht ++ "m (TowerHt="
              ++ float_repr ht ++ " + Twr2Shft=0)")).
Proof.
  split; [split; reflexivity|].
  split; [split; reflexivity|].
  intros content ht Hht r off hub_height. subst r.
  unfold parse_elastodyn_file. cbn [snd].
  set (st := ed_loop files (lines_of content) (mkEd g None None None)).
  assert (Et : tower_ht st = Some ht).
  { subst st. now rewrite loop_tower_ht, Hht. }
  assert (Eo : twr2shft st = off).
  { subst st off. rewrite loop_twr2shft. cbn [twr2shft].
    now destruct (last_of _). }
  unfold ed_finish. rewrite Et, Eo. fold hub_height.
  split; [reflexivity|]. split.
  - cbn [Geometry.add_read Geometry.add_warning Geometry.warnings].
    unfold last_of. now rewrite rev_app_distr.
  - intros E. subst hub_height. now rewrite E.
Qed.

Lemma C6_hub_height_witness :
  last_of (reads TowerHt TFloat (lines_of (unlines ["3 NumBl"; "80.0 TowerHt"])))
  = Some (Some f80)
  /\ Geometry.hubHeight
       (Geometry.config
          (snd (parse_elastodyn_file [] (unlines ["3 NumBl"; "80.0 TowerHt"])
                  Geometry.empty)))
     = Some f80.
Proof.
  split; [reflexivity|].
  exact (proj1 (proj2 (proj2 (C6_hub_height [] Geometry.empty))
                  (unlines ["3 NumBl"; "80.0 TowerHt"]) f80 eq_refl)).
Defined.

(** C7, as stated, fails.  After [50.0 TipRad] a second line [0.0 TipRad],
    whose value is read successfully, leaves [blades.length] at 50.0, not
    at 0.0, the last value read.  After [3 NumBl] a second line [x NumBl],
    whose value cannot be read, leaves [config.numBlades] present and bound
    to [None], neither absent nor 3, the last value read successfully. *)
Lemma C7_counterexample :
  (overwritten None (successes (reads TipRad TFloat ["50.0 TipRad"; "0.0 TipRad"]))
   = Some f0
   /\ Geometry.blades_length
        (Geometry.blades
           (snd (parse_elastodyn_file [] (unlines ["50.0 TipRad"; "0.0 TipRad"])
                   Geometry.empty)))
      = Some f50
   /\ Some f50 <> Some f0)
  /\ (overwritten None (successes (reads NumBl TInt ["3 NumBl"; "x NumBl"]))
      = Some 3%Z
      /\ Geometry.numBlades
           (Geometry.config
              (snd (parse_elastodyn_file [] (unlines ["3 NumBl"; "x NumBl"])
                      Geometry.empty)))
         = Some None
      /\ Some (@None Z) <> Some (Some 3%Z)).
Proof. repeat split; discriminate. Qed.

(** C7 (amended).  For every structural file, each optional scalar field
    of the result holds one value, that of the last line in encounter
    order that wrote it, or is left as it was when no line wrote it:
    [numBlades], [hub.radius], [precone], [hub.overhang], [hub.shaftTilt]
    hold what the reader returned on the last line of their keyword, which
    is [None] when that value could not be read; [blades.length], and
    [rotorDiameter] as its double, come from the last tip-radius line whose
    value was read and is not zero, [tower.height] likewise from the
    tower-height lines; [tower.baseElevation] is the last value read
    successfully on a base-elevation line; [hubHeight] is set when the last
    tower-height line was read, to that value plus the value of the last
    offset line if that was read. *)
Theorem C7_scalar_fields (files : FileStore.t) (content : string) (g : Geometry.t) :
  let lines := lines_of content in
  let r := snd (parse_elastodyn_file files content g) in
  Geometry.numBlades (Geometry.config r)
    = overwritten (Geometry.numBlades (Geometry.config g)) (reads NumBl TInt lines)
  /\ Geometry.radius (Geometry.hub r)
    = overwritten (Geometry.radius (Geometry.hub g)) (reads HubRad TFloat lines)
  /\ Geometry.precone (Geometry.blades r)
    = overwritten (Geometry.precone (Geometry.blades g)) (reads PreCone TFloat lines)
  /\ Geometry.overhang (Geometry.hub r)
    = overwritten (Geometry.overhang (Geometry.hub g)) (reads OverHang TFloat lines)
  /\ Geometry.shaftTilt (Geometry.hub r)
    = overwritten (Geometry.shaftTilt (Geometry.hub g)) (reads ShftTilt TFloat lines)
  /\ Geometry.blades_length (Geometry.blades r)
    = overwritten (Geometry.blades_length (Geometry.blades g)) (nonzero_reads TipRad lines)
  /\ Geometry.rotorDiameter (Geometry.config r)
    = overwritten (Geometry.rotorDiameter (Geometry.config g))
        (map twice (nonzero_reads TipRad lines))
  /\ Geometry.height (Geometry.tower r)
    = overwritten (Geometry.height (Geometry.tower g)) (nonzero_reads TowerHt lines)
  /\ Geometry.baseElevation (Geometry.tower r)
    = overwritten (Geometry.baseElevation (Geometry.tower g))
        (successes (reads TowerBsHt TFloat lines))
  /\ Geometry.hubHeight (Geometry.config r)
    = match derived_hub_height lines with
      | Some h => Some h
      | None => Geometry.hubHeight (Geometry.config g)
      end.
Proof.
  intros lines r. subst r. unfold parse_elastodyn_file. cbn [snd]. fold lines.
  set (st0 := mkEd g None None None).
  repeat split.
  - rewrite finish_numBlades.
    rewrite (ed_loop_field _ _ files (step_numBlades files)).
    now rewrite successes_line_write, successes_map_Some.
  - rewrite finish_hub.
    rewrite (ed_loop_field _ _ files (step_radius files)).
    now rewrite successes_line_write, successes_map_Some.
  - rewrite finish_blades.
    rewrite (ed_loop_field _ _ files (step_precone files)).
    now rewrite successes_line_write, successes_map_Some.
  - rewrite finish_hub.
    rewrite (ed_loop_field _ _ files (step_overhang files)).
    now rewrite successes_line_write, successes_map_Some.
  - rewrite finish_hub.
    rewrite (ed_loop_field _ _ files (step_shaftTilt files)).
    now rewrite successes_line_write, successes_map_Some.
  - rewrite finish_blades.
    rewrite (ed_loop_field _ _ files (step_length files)).
    now rewrite successes_line_write, successes_if_nonzero.
  - rewrite finish_rotorDiameter.
    rewrite (ed_loop_field _ _ files (step_rotorDiameter files)).
    now rewrite successes_line_write, successes_twice.
  - rewrite finish_tower.
    rewrite (ed_loop_field _ _ files (step_height files)).
    now rewrite successes_line_write, successes_if_nonzero.
  - rewrite finish_tower.
    rewrite (ed_loop_field _ _ files (step_baseElevation files)).
    now rewrite successes_line_write, successes_map_id.
  - rewrite finish_hubHeight, loop_tower_ht, loop_twr2shft, loop_hubHeight.
    unfold derived_hub_height. cbn [tower_ht twr2shft ed_geometry st0].
    destruct (last_of (reads TowerHt TFloat lines)) as [[ht|]|];
      destruct (last_of (reads Twr2Shft TFloat lines)) as [[off|]|]; reflexivity.
Qed.

(** C8, as stated, fails: the main file names an aerodynamic file that is
    not in the store, the name is read, and no warning names it; the only
    warning is the one about the structural file. *)
Lemma C8_counterexample :
  read_value "aero.dat AeroFile" TStr = Some "aero.dat"
  /\ get_file [("main.fst", "aero.dat AeroFile")] "aero.dat" = None
  /\ Geometry.warnings
       (geometry (extract_openfast_geometry [("main.fst", "aero.dat AeroFile")]))
     = ["No ElastoDyn file reference found or file not uploaded"]
  /\ ~ Exists (fun w => contains "aero.dat" w = true)
         (Geometry.warnings
            (geometry (extract_openfast_geometry [("main.fst", "aero.dat AeroFile")]))).
Proof.
  repeat split. intros H. apply Exists_exists in H as (w & Hin & Hw).
  destruct Hin as [<- | []]. discriminate Hw.
Qed.

(** C8 (amended).  The two references are not handled alike.  A line on
    the aerodynamic branch whose file is not resolved changes nothing: no
    warning is appended, whether or not a name was read.  A line on the
    structural branch whose name was read and is not resolved appends the
    warning that names it.  A main file without a line on the structural
    branch ends with one more warning than before, the one about the
    structural file, whatever its aerodynamic references. *)
Theorem C8_aero_reference_is_silent (files : FileStore.t) :
  (forall line st,
      is_skipped line = false -> is_ed_reference line = false ->
      is_aero_reference line = true ->
      usable (resolve files (read_value line TStr)) = None ->
      main_step files line st = st)
  /\ (forall line st f,
        is_skipped line = false -> is_ed_reference line = true ->
        named (read_value line TStr) = Some f ->
        usable (resolve files (read_value line TStr)) = None ->
        Geometry.warnings (main_geometry (main_step files line st))
        = (Geometry.warnings (main_geometry st)
           ++ [("EDFile '" ++ f ++ "' not found")%string])%list)
  /\ (forall content g,
        Forall (fun line => is_skipped line = true \/ is_ed_reference line = false)
          (lines_of content) ->
        Geometry.warnings (snd (parse_main_file files content g))
        = (Geometry.warnings g
           ++ ["No ElastoDyn file reference found or file not uploaded"])%list).
Proof.
  split; [|split].
  - intros line st Hs He Ha Hu. unfold main_step. now rewrite Hs, He, Ha, Hu.
  - intros line st f Hs He Hn Hu. unfold main_step. now rewrite Hs, He, Hu, Hn.
  - intros content g H. unfold parse_main_file. cbn [snd].
    destruct (main_loop_no_ed files _ (mkMain g false false) H) as [Hw Hf].
    cbn [found_ed main_geometry] in Hw, Hf. rewrite Hf. cbn. now rewrite Hw.
Qed.

Lemma C8_aero_reference_is_silent_witness :
  main_step [] "aero.dat AeroFile" (mkMain Geometry.empty false false)
  = mkMain Geometry.empty false false
  /\ Geometry.warnings
       (main_geometry (main_step [] "ed.dat EDFile" (mkMain Geometry.empty false false)))
     = ["EDFile 'ed.dat' not found"]
  /\ Geometry.warnings (snd (parse_main_file [] "aero.dat AeroFile" Geometry.empty))
     = ["No ElastoDyn file reference found or file not uploaded"].
Proof.
  split; [|split].
  - apply (proj1 (C8_aero_reference_is_silent [])); reflexivity.
  - apply (proj1 (proj2 (C8_aero_reference_is_silent []))
             "ed.dat EDFile" (mkMain Geometry.empty false false) "ed.dat");
      reflexivity.
  - apply (proj2 (proj2 (C8_aero_reference_is_silent []))
             "aero.dat AeroFile" Geometry.empty).
    constructor; [right; reflexivity | constructor].
Defined.

(** C9.  On every line of the structural file the two tower keywords
    exclude each other: the tower-height branch is taken only by a line
    that contains [TowerHt] and does not contain [TowerBsHt], and a line
    that contains [TowerBsHt] writes neither [tower.height] nor the
    tower-height variable from which the hub height is derived. *)
Theorem C9_tower_keywords_exclusive (files : FileStore.t) (raw : string)
    (st : ed_state) :
  (classify (strip raw) = TowerHt ->
     contains "TowerHt" (strip raw) = true
     /\ contains "TowerBsHt" (strip raw) = false)
  /\ (contains "TowerBsHt" (strip raw) = true ->
      classify (strip raw) <> TowerHt
      /\ Geometry.height (Geometry.tower (ed_geometry (ed_step files raw st)))
         = Geometry.height (Geometry.tower (ed_geometry st))
      /\ tower_ht (ed_step files raw st) = tower_ht st).
Proof.
  assert (Hcl : classify (strip raw) = TowerHt ->
                contains "TowerHt" (strip raw) = true
                /\ contains "TowerBsHt" (strip raw) = false).
  { unfold classify.
    destruct (contains "TowerHt" (strip raw)), (contains "TowerBsHt" (strip raw));
      cbn [andb negb];
      repeat match goal with
      | |- context [if contains ?k ?l then _ else _] => destruct (contains k l)
      end;
      intros H; try discriminate H; split; reflexivity. }
  split; [exact Hcl|].
  intros Hbs.
  assert (Hne : classify (strip raw) <> TowerHt).
  { intros E. destruct (Hcl E) as [_ H]. congruence. }
  split; [exact Hne|].
  split.
  - rewrite step_height. unfold line_write.
    destruct (classify (strip raw)); try reflexivity. now elim Hne.
  - pose proof (step_tower_ht files raw st) as H. unfold line_write in H.
    destruct (classify (strip raw)); cbn [keyword_eqb] in H;
      try (now elim Hne); now inversion H.
Qed.

Lemma C9_tower_keywords_exclusive_witness :
  (contains "TowerHt" "80.0 TowerHt" = true
   /\ contains "TowerBsHt" "80.0 TowerHt" = false)
  /\ Geometry.height
       (Geometry.tower
          (ed_geometry (ed_step [] "10.0 TowerBsHt" (mkEd Geometry.empty None None None))))
     = None.
Proof.
  split.
  - apply (proj1 (C9_tower_keywords_exclusive []
                    "80.0 TowerHt" (mkEd Geometry.empty None None None))).
    reflexivity.
  - apply (proj2 (C9_tower_keywords_exclusive []
                    "10.0 TowerBsHt" (mkEd Geometry.empty None None None))).
    reflexivity.
Defined.

(** C10, as stated, fails for the structural reference: the main file
    names [my-ed.dat], which is stored; the reader returns [my]; the file
    is never parsed, but not silently, since the warning about [my] is
    recorded. *)
Lemma C10_counterexample :
  get_file [("main.fst", "my-ed.dat EDFile"); ("my-ed.dat", "3 NumBl")] "my-ed.dat"
  = Some "3 NumBl"
  /\ read_value "my-ed.dat EDFile" TStr = Some "my"
  /\ Geometry.numBlades
       (Geometry.config
          (geometry (extract_openfast_geometry
                       [("main.fst", "my-ed.dat EDFile"); ("my-ed.dat", "3 NumBl")])))
     = None
  /\ Geometry.warnings
       (geometry (extract_openfast_geometry
                    [("main.fst", "my-ed.dat EDFile"); ("my-ed.dat", "3 NumBl")]))
     = ["EDFile 'my' not found";
        "No ElastoDyn file reference found or file not uploaded"].
Proof. repeat split. Qed.

(** C10 (amended).  On a reference line that starts, after blanks and an
    optional opening quote, with a file name whose first [-] or [!] follows
    the plain characters [pre], the reader returns [pre]: the name cut at
    that character, without the quote.  The line is then handled through
    [pre] alone: the file parsed is the one the store resolves for [pre],
    if it resolves and is not empty, which takes a stored name that equals
    [pre] or its final path segment, or has the same final path segment;
    otherwise none is parsed.  This is
    silent on the aerodynamic, blade and tower references; the structural
    reference records the warning that names [pre], when [pre] is not
    empty. *)
Theorem C10_reference_truncated (files : FileStore.t) (ws q pre : string)
    (c : ascii) (tail : string) :
  all_chars is_space ws = true -> opening q ->
  all_chars plain_char pre = true -> is_delim c = true ->
  let line := reference_line ws q pre c tail in
  named (read_value line TStr) = named (Some pre)
  /\ (truthy pre = true -> read_value line TStr = Some pre)
  /\ (forall content,
        usable (resolve files (Some pre)) = Some content ->
        truthy pre = true /\ truthy content = true
        /\ exists k, In (k, content) files
                     /\ (k = pre \/ k = basename pre \/ basename k = basename pre))
  /\ (forall st,
        is_skipped line = false -> is_ed_reference line = true ->
        main_step files line st
        = match usable (resolve files (Some pre)) with
          | Some content =>
              mkMain (snd (parse_elastodyn_file files content (main_geometry st)))
                true (found_aero st)
          | None =>
              if truthy pre then
                mkMain (Geometry.add_warning ("EDFile '" ++ pre ++ "' not found")
                          (main_geometry st))
                  (found_ed st) (found_aero st)
              else st
          end)
  /\ (forall st,
        is_skipped line = false -> is_ed_reference line = false ->
        is_aero_reference line = true ->
        main_step files line st
        = match usable (resolve files (Some pre)) with
          | Some content =>
              mkMain (snd (parse_aerodyn_file content (main_geometry st)))
                (found_ed st) true
          | None => st
          end)
  /\ (forall st,
        classify (strip line) = BldFile ->
        ed_step files line st
        = match usable (resolve files (Some pre)) with
          | Some content => ed_with (snd (parse_blade_file content (ed_geometry st))) st
          | None => st
          end)
  /\ (forall st,
        classify (strip line) = TwrFile ->
        ed_step files line st
        = match usable (resolve files (Some pre)) with
          | Some content => ed_with (snd (parse_tower_file content (ed_geometry st))) st
          | None => st
          end).
Proof.
  intros Hws Hq Hpre Hc line.
  pose proof (named_read_reference ws q pre c tail Hws Hq Hpre Hc) as Hn.
  fold line in Hn.
  assert (Hr : resolve files (read_value line TStr) = resolve files (Some pre)).
  { rewrite resolve_named, Hn. symmetry. apply resolve_named. }
  split; [exact Hn|].
  split; [intros Hne; now apply read_value_truncated|].
  split; [|split; [|split; [|split]]].
  - intros content Hu. cbn [resolve] in Hu.
    destruct (truthy pre); [|discriminate].
    destruct (get_file files pre) as [c0|] eqn:Eg; [|discriminate].
    cbn [usable] in Hu. destruct (truthy c0) eqn:Ec; [|discriminate].
    inversion Hu; subst. split; [reflexivity|]. split; [exact Ec|].
    now apply get_file_some.
  - intros st Hs He. unfold main_step. rewrite Hs, He, Hr, Hn.
    destruct (usable _); [reflexivity|]. cbn [named].
    destruct (truthy pre); reflexivity.
  - intros st Hs He Ha. unfold main_step. now rewrite Hs, He, Ha, Hr.
  - intros st Hk. unfold ed_step. now rewrite Hk, read_value_strip, Hr.
  - intros st Hk. unfold ed_step. now rewrite Hk, read_value_strip, Hr.
Qed.

Lemma C10_reference_truncated_witness :
  read_value (String dquote "my-blade.dat" ++ String dquote " BldFile") TStr = Some "my"
  /\ ed_step [("my-blade.dat", "BlFract")]
       (String dquote "my-blade.dat" ++ String dquote " BldFile")
       (mkEd Geometry.empty None None None)
     = mkEd Geometry.empty None None None.
Proof.
  pose proof (C10_reference_truncated [("my-blade.dat", "BlFract")]
                EmptyString (String dquote EmptyString) "my" "-"%char
                ("blade.dat" ++ String dquote " BldFile")
                eq_refl (or_intror (or_introl eq_refl)) eq_refl eq_refl) as H.
  cbv zeta in H. destruct H as (_ & Hread & _ & _ & _ & Hbld & _).
  split.
  - exact (Hread eq_refl).
  - exact (Hbld (mkEd Geometry.empty None None None) eq_refl).
Defined.

End Claims.

(* ===================================================================== *)
(** * Further properties of the code *)
(* ===================================================================== *)

Module Extras.
Import PyStr PyNum Extractor Spec Examples Notions.
Import StrFacts ReadFacts ParserFacts ScalarFacts StoreFacts MainFacts.
Import TableFacts TokenFacts DictFacts PipelineFacts RunFacts.

(** X1.  After [add_file(filename, content)], [get_file(filename)] returns
    [content], whatever was stored before; the exact lookup of every other
    name is unchanged, the keys stay pairwise different, and the geometry
    is not touched. *)
Theorem X1_add_file_then_get_file (self : GeometryExtractor)
    (filename content : string) :
  let self' := add_file filename content self in
  get_file (self_files self') filename = Some content
  /\ (forall other, other <> filename ->
        FileStore.lookup other (self_files self')
        = FileStore.lookup other (self_files self))
  /\ (NoDup (map fst (self_files self)) -> NoDup (map fst (self_files self')))
  /\ self_geometry self' = self_geometry self.
Proof.
  cbv zeta. unfold add_file. cbn [self_files self_geometry].
  split; [|split; [|split]].
  - unfold get_file. now rewrite lookup_store_same.
  - intros other H. now apply lookup_store_other.
  - apply store_NoDup.
  - reflexivity.
Qed.

Lemma X1_add_file_then_get_file_witness :
  NoDup (map fst (self_files (add_file "a.dat" "new"
                                (mkExtractor Geometry.empty [("a.dat", "old")])))).
Proof.
  apply (proj1 (proj2 (proj2 (X1_add_file_then_get_file
                                (mkExtractor Geometry.empty [("a.dat", "old")])
                                "a.dat" "new")))).
  simpl. constructor; [intros [] | constructor].
Defined.

(** X2.  Called on a dictionary (keys pairwise different), the entry point
    runs [extract_geometry] on a fresh accumulator and on a store that
    holds the items of the dictionary in their order. *)
Theorem X2_entry_point_store (files_dict : list (string * string)) :
  NoDup (map fst files_dict) ->
  extract_openfast_geometry files_dict
  = extract_geometry (mkExtractor Geometry.empty files_dict).
Proof.
  intros H. unfold extract_openfast_geometry, init.
  now rewrite (fold_add_file files_dict Geometry.empty [] H).
Qed.

Lemma X2_entry_point_store_witness :
  extract_openfast_geometry [("main.fst", "x.dat EDFile"); ("x.dat", "3 NumBl")]
  = extract_geometry
      (mkExtractor Geometry.empty [("main.fst", "x.dat EDFile"); ("x.dat", "3 NumBl")]).
Proof.
  apply X2_entry_point_store. simpl.
  constructor; [intros [H|[]]; discriminate H|].
  constructor; [intros [] | constructor].
Defined.

(** X3.  A run of the entry point ends in one of two ways: success, with
    no error and [main.fst] as the last label of [filesRead]; or failure,
    and then the geometry is the empty one with the single error
    [No .fst file found]: no field, no warning, no label. *)
Theorem X3_result_shape (files_dict : list (string * string)) :
  let r := extract_openfast_geometry files_dict in
  (success r = true
   /\ Geometry.errors (geometry r) = []
   /\ last_of (Geometry.filesRead (geometry r)) = Some "main.fst")
  \/ (success r = false
      /\ geometry r = Geometry.add_error "No .fst file found" Geometry.empty).
Proof.
  cbv zeta. unfold extract_openfast_geometry, extract_geometry.
  rewrite fold_add_file_geometry. cbn [init self_geometry].
  set (files := self_files _).
  destruct (usable (find_main files)) as [c|]; [left | right; split; reflexivity].
  pose proof (main_errors files c Geometry.empty) as He.
  pose proof (main_ok files c Geometry.empty) as Hok.
  assert (Hl : last_of (Geometry.filesRead (snd (parse_main_file files c Geometry.empty)))
               = Some "main.fst").
  { unfold parse_main_file. cbn [snd Geometry.add_read Geometry.filesRead].
    apply last_of_snoc. }
  destruct (parse_main_file files c Geometry.empty) as [ok g]. simpl in *.
  subst ok. unfold no_errors. rewrite He. repeat split. exact Hl.
Qed.

(** X4.  Every parser only adds to the diagnostics of the accumulator: the
    errors stay as they are, the warnings and the labels of [filesRead]
    are kept and extended at the end; each added warning has one of the
    five forms of the code, each added label is one of its five labels. *)
Theorem X4_diagnostics_append_only (files : FileStore.t) (content : string)
    (g : Geometry.t) :
  grows known_warning g (snd (parse_main_file files content g))
  /\ grows loop_warning g (snd (parse_elastodyn_file files content g))
  /\ grows loop_warning g (snd (parse_blade_file content g))
  /\ grows loop_warning g (snd (parse_tower_file content g))
  /\ grows loop_warning g (snd (parse_aerodyn_file content g)).
Proof.
  split; [apply grows_main|].
  split; [apply grows_elastodyn, grows_refl|].
  split; [apply grows_blade; [constructor | apply grows_refl]|].
  split; [apply grows_tower; [constructor | apply grows_refl]|].
  unfold parse_aerodyn_file. cbn [snd].
  apply grows_read; [simpl; tauto | apply grows_refl].
Qed.

(** X5.  In the result of a run, a stored list of blade stations or of
    tower stations is never empty, and every tower station has its height
    fraction between 0 and 1. *)
Theorem X5_stations_invariant (files_dict : list (string * string)) :
  good_stations (geometry (extract_openfast_geometry files_dict)).
Proof.
  unfold extract_openfast_geometry, extract_geometry.
  rewrite fold_add_file_geometry. cbn [init self_geometry].
  set (files := self_files _).
  assert (H0 : good_stations Geometry.empty).
  { split; intros l H; discriminate H. }
  destruct (usable (find_main files)) as [c|].
  - pose proof (good_stations_main files c Geometry.empty H0) as H.
    now destruct (parse_main_file files c Geometry.empty).
  - exact H0.
Qed.

(** X6.  In the result of a run, [config.rotorDiameter] is twice
    [blades.length]: both are present, or both are missing. *)
Theorem X6_diameter_twice_length (files_dict : list (string * string)) :
  diameter_is_twice_length (geometry (extract_openfast_geometry files_dict)).
Proof.
  unfold extract_openfast_geometry, extract_geometry.
  rewrite fold_add_file_geometry. cbn [init self_geometry].
  set (files := self_files _).
  destruct (usable (find_main files)) as [c|]; [|reflexivity].
  pose proof (diameter_main files c Geometry.empty eq_refl) as H.
  now destruct (parse_main_file files c Geometry.empty).
Qed.

(** X7.  A table file without its header line, in particular an empty
    file, changes nothing: no station, no label, no warning, whatever
    numbers it holds. *)
Theorem X7_table_without_header (content : string) (g : Geometry.t) :
  (Forall (fun line => is_blade_header line = false) (lines_of content) ->
     parse_blade_file content g = (true, g))
  /\ (Forall (fun line => is_tower_header line = false) (lines_of content) ->
      parse_tower_file content g = (true, g)).
Proof.
  split; intros H.
  - unfold parse_blade_file. rewrite blade_rows_before_table.
    now rewrite (after_header_none _ _ H).
  - unfold parse_tower_file. rewrite tower_rows_before_table.
    now rewrite (after_header_none _ _ H).
Qed.

Lemma X7_table_without_header_witness :
  parse_blade_file (unlines ["0.0 0.0 5.0"; "1.0 0.0 -2.0"]) Geometry.empty
  = (true, Geometry.empty)
  /\ parse_tower_file EmptyString Geometry.empty = (true, Geometry.empty).
Proof.
  split.
  - apply (proj1 (X7_table_without_header
                    (unlines ["0.0 0.0 5.0"; "1.0 0.0 -2.0"]) Geometry.empty)).
    repeat constructor.
  - apply (proj2 (X7_table_without_header EmptyString Geometry.empty)).
    repeat constructor.
Defined.

(** X8.  The blade stations of a file are the stations of its rows after
    the first header line, in file order: one station for each row with
    three leading floats, none for any other line.  There are at most as
    many stations as lines, and the parser stores this list when it is not
    empty. *)
Theorem X8_blade_table (lines : list string)
    (stations : list Geometry.BladeStation) (content : string) (g : Geometry.t) :
  blade_rows lines true stations = (stations ++ flat_map blade_row lines)%list
  /\ blade_rows lines false stations
     = (stations ++ flat_map blade_row (after_header is_blade_header lines))%list
  /\ Geometry.blades_stations (Geometry.blades (snd (parse_blade_file content g)))
     = match blade_table content with
       | [] => Geometry.blades_stations (Geometry.blades g)
       | station :: more => Some (station :: more)
       end
  /\ (List.length (blade_table content) <= List.length (lines_of content))%nat.
Proof.
  split; [apply blade_rows_in_table|].
  split; [apply blade_rows_before_table|].
  split.
  - unfold parse_blade_file. rewrite blade_rows_before_table. cbn [app].
    fold (blade_table content). destruct (blade_table content); reflexivity.
  - unfold blade_table.
    etransitivity; [apply flat_map_length_le, blade_row_length|].
    apply after_header_length.
Qed.

(** X9.  The tower stations of a file are the stations of its rows after
    the first header line and before the first line that ends the table (a
    separator, or a row whose first token is not a float between 0 and 1),
    in file order.  What follows that line never matters. *)
Theorem X9_tower_table (lines : list string)
    (stations : list Geometry.TowerStation) (content : string) (g : Geometry.t) :
  tower_rows lines true stations
  = (stations ++ flat_map tower_row (until tower_stop lines))%list
  /\ tower_rows lines false stations
     = (stations
        ++ flat_map tower_row
             (until tower_stop (after_header is_tower_header lines)))%list
  /\ Geometry.tower_stations (Geometry.tower (snd (parse_tower_file content g)))
     = match tower_table content with
       | [] => Geometry.tower_stations (Geometry.tower g)
       | station :: more => Some (station :: more)
       end
  /\ (forall stop rest,
        tower_stop stop = true ->
        tower_rows (lines ++ stop :: rest) true stations
        = tower_rows lines true stations).
Proof.
  split; [apply tower_rows_in_table|].
  split; [apply tower_rows_before_table|].
  split.
  - unfold parse_tower_file. rewrite tower_rows_before_table. cbn [app].
    fold (tower_table content). destruct (tower_table content); reflexivity.
  - intros stop rest H. rewrite !tower_rows_in_table.
    now rewrite (until_app_stop _ _ _ _ H).
Qed.

Lemma X9_tower_table_witness :
  tower_rows (["0.0"; "0.5"] ++ "---- next section" :: ["0.7"])%list true []
  = tower_rows ["0.0"; "0.5"] true [].
Proof.
  exact (proj2 (proj2 (proj2 (X9_tower_table ["0.0"; "0.5"] [] EmptyString
                                 Geometry.empty)))
           "---- next section" ["0.7"] eq_refl).
Defined.

(** X10.  What the reader returns never holds whitespace, [!] or [-]: a
    string it reads has none of these characters, an integer it reads is
    not negative, and a float it reads does not have the sign bit set. *)
Theorem X10_read_value_never_negative (line : string) :
  (forall v, read_value line TStr = Some v -> all_chars token_char v = true)
  /\ (forall z, read_value line TInt = Some z -> (0 <= z)%Z)
  /\ (forall x, read_value line TFloat = Some x -> is_negative x = false).
Proof.
  split; [|split].
  - intros v H. apply read_value_token in H as (t & Ht & Hc).
    simpl in Hc. now inversion Hc; subst.
  - intros z H. apply read_value_token in H as (t & Ht & Hc).
    now apply (py_int_nonneg t).
  - intros x H. apply read_value_token in H as (t & Ht & Hc).
    now apply (py_float_not_negative t).
Qed.

Lemma X10_read_value_never_negative_witness :
  all_chars token_char "Blade1.dat" = true /\ (0 <= 3)%Z
  /\ is_negative f50 = false.
Proof.
  split; [|split].
  - exact (proj1 (X10_read_value_never_negative "Blade1.dat BldFile")
             "Blade1.dat" eq_refl).
  - exact (proj1 (proj2 (X10_read_value_never_negative "3 NumBl")) 3%Z eq_refl).
  - exact (proj2 (proj2 (X10_read_value_never_negative "50.0 TipRad"))
             f50 eq_refl).
Defined.

(** X11.  The reader looks at the text before the first [!] or [-] only:
    what follows that character never changes the result, and neither do
    blanks around the line. *)
Theorem X11_read_value_ignores_comment (a : string) (c : ascii) (t : string)
    (ty : value_type) :
  all_chars (fun x => negb (is_delim x)) a = true -> is_delim c = true ->
  read_value (a ++ String c t) ty = read_value a ty
  /\ read_value (strip (a ++ String c t)) ty = read_value a ty.
Proof.
  intros Ha Hc. split.
  - now apply read_value_before_delim.
  - rewrite read_value_strip. now apply read_value_before_delim.
Qed.

Lemma X11_read_value_ignores_comment_witness :
  read_value "3 NumBl ! 3 blades" TInt = read_value "3 NumBl " TInt.
Proof.
  exact (proj1 (X11_read_value_ignores_comment "3 NumBl " "!"%char " 3 blades" TInt
                  eq_refl eq_refl)).
Defined.

(** X12.  The structural parser does not skip comment or separator lines.
    On a line whose first character after the blanks is [!] or [-] the
    reader returns nothing, so such a line that mentions a keyword binds
    [numBlades], [hub.radius], [precone], [hub.overhang] or
    [hub.shaftTilt] to [None], and resets the tower height or the offset
    from which the hub height is derived; on the other branches it changes
    nothing. *)
Theorem X12_structural_comment_line (files : FileStore.t) (raw : string)
    (st : ed_state) :
  starts_with_delim raw = true ->
  let st' := ed_step files raw st in
  let g' := ed_geometry st' in
  (forall ty, read_value (strip raw) ty = None)
  /\ (classify (strip raw) = NumBl ->
      Geometry.numBlades (Geometry.config g') = Some None)
  /\ (classify (strip raw) = HubRad ->
      Geometry.radius (Geometry.hub g') = Some None)
  /\ (classify (strip raw) = PreCone ->
      Geometry.precone (Geometry.blades g') = Some None)
  /\ (classify (strip raw) = OverHang ->
      Geometry.overhang (Geometry.hub g') = Some None)
  /\ (classify (strip raw) = ShftTilt ->
      Geometry.shaftTilt (Geometry.hub g') = Some None)
  /\ (classify (strip raw) = TowerHt ->
      tower_ht st' = None /\ g' = ed_geometry st)
  /\ (classify (strip raw) = Twr2Shft ->
      twr2shft st' = None /\ g' = ed_geometry st)
  /\ (classify (strip raw) = TipRad \/ classify (strip raw) = TowerBsHt
      \/ classify (strip raw) = BldFile \/ classify (strip raw) = TwrFile ->
      g' = ed_geometry st).
Proof.
  intros Hd st' g'.
  assert (Hr : forall ty, read_value (strip raw) ty = None).
  { intros ty. rewrite read_value_strip. apply read_value_nothing. now left. }
  split; [exact Hr|].
  subst g' st'. unfold ed_step.
  do 5 (split; [intros Hk; rewrite Hk, Hr; reflexivity|]).
  split; [intros Hk; rewrite Hk, Hr; split; reflexivity|].
  split; [intros Hk; rewrite Hk, Hr; split; reflexivity|].
  intros [Hk | [Hk | [Hk | Hk]]]; rewrite Hk, Hr; reflexivity.
Qed.

Lemma X12_structural_comment_line_witness :
  Geometry.numBlades
    (Geometry.config
       (ed_geometry
          (ed_step [] "---------------------- NumBl -----"
             (mkEd (Geometry.set_numBlades (Some 3%Z) Geometry.empty) None None None))))
  = Some None.
Proof.
  exact (proj1 (proj2 (X12_structural_comment_line []
                         "---------------------- NumBl -----"
                         (mkEd (Geometry.set_numBlades (Some 3%Z) Geometry.empty)
                            None None None)
                         eq_refl))
           eq_refl).
Defined.

(** X13.  A request that is not a stored key is resolved through its final
    path segment alone: it resolves like that segment, and like any other
    request with the same final segment that is not a stored key either. *)
Theorem X13_get_file_by_segment (files : FileStore.t) (p q : string) :
  (FileStore.lookup p files = None ->
     get_file files p = get_file files (basename p))
  /\ (FileStore.lookup p files = None -> FileStore.lookup q files = None ->
      basename p = basename q -> get_file files p = get_file files q)
  /\ basename (basename p) = basename p.
Proof.
  split; [|split].
  - intros H. unfold get_file. rewrite H, basename_idem.
    destruct (FileStore.lookup (basename p) files); reflexivity.
  - intros Hp Hq E. unfold get_file. now rewrite Hp, Hq, E.
  - apply basename_idem.
Qed.

Lemma X13_get_file_by_segment_witness :
  get_file [("Blade1.dat", "rows")] "a/b/Blade1.dat"
  = get_file [("Blade1.dat", "rows")] "c/Blade1.dat".
Proof.
  exact (proj1 (proj2 (X13_get_file_by_segment [("Blade1.dat", "rows")]
                         "a/b/Blade1.dat" "c/Blade1.dat"))
           eq_refl eq_refl eq_refl).
Defined.

(** X14.  When the last tower-height line of a structural file is read as
    a non-zero [ht], [tower.height] is [ht] and [config.hubHeight] is [ht]
    plus the offset read on the last offset line, or [ht] when there is
    none: the two fields agree. *)
Theorem X14_height_and_hub_height (files : FileStore.t) (content : string)
    (g : Geometry.t) (ht : float) :
  last_of (reads TowerHt TFloat (lines_of content)) = Some (Some ht) ->
  float_truthy ht = true ->
  let r := snd (parse_elastodyn_file files content g) in
  Geometry.height (Geometry.tower r) = Some ht
  /\ Geometry.hubHeight (Geometry.config r)
     = Some match last_of (reads Twr2Shft TFloat (lines_of content)) with
            | Some (Some off) => fadd ht off
            | _ => ht
            end.
Proof.
  intros Hl Ht r. subst r. unfold parse_elastodyn_file. cbn [snd].
  split.
  - rewrite finish_tower.
    rewrite (ed_loop_field _ _ files (step_height files)).
    rewrite successes_line_write, successes_if_nonzero.
    unfold overwritten. now rewrite (last_nonzero_read _ _ Hl Ht).
  - rewrite finish_hubHeight, loop_tower_ht, loop_twr2shft, Hl.
    cbn [twr2shft].
    destruct (last_of (reads Twr2Shft TFloat (lines_of content))) as [[off|]|];
      reflexivity.
Qed.

Lemma X14_height_and_hub_height_witness :
  Geometry.height
    (Geometry.tower
       (snd (parse_elastodyn_file [] (unlines ["80.0 TowerHt"; "5.0 Twr2Shft"])
               Geometry.empty)))
  = Some f80.
Proof.
  exact (proj1 (X14_height_and_hub_height []
                  (unlines ["80.0 TowerHt"; "5.0 Twr2Shft"]) Geometry.empty f80
                  eq_refl eq_refl)).
Defined.

(** X15.  After a structural file, [blades.stations] holds the stations of
    the last blade-file reference that resolved to a file with at least one
    station, and [tower.stations] likewise: a later reference that does not
    resolve, or to a file without stations, keeps the earlier list.  The
    stations a reference stores are the table of the file it resolves to. *)
Theorem X15_stations_from_last_reference (files : FileStore.t) (content : string)
    (g : Geometry.t) :
  let lines := lines_of content in
  let r := snd (parse_elastodyn_file files content g) in
  Geometry.blades_stations (Geometry.blades r)
  = overwritten (Geometry.blades_stations (Geometry.blades g))
      (successes (map (blade_write files) lines))
  /\ Geometry.tower_stations (Geometry.tower r)
     = overwritten (Geometry.tower_stations (Geometry.tower g))
         (successes (map (tower_write files) lines))
  /\ (forall raw l, blade_write files raw = Some l ->
        classify (strip raw) = BldFile /\ l <> []
        /\ exists file, usable (resolve files (read_value (strip raw) TStr)) = Some file
                        /\ l = blade_table file)
  /\ (forall raw l, tower_write files raw = Some l ->
        classify (strip raw) = TwrFile /\ l <> []
        /\ exists file, usable (resolve files (read_value (strip raw) TStr)) = Some file
                        /\ l = tower_table file).
Proof.
  intros lines r. subst r. unfold parse_elastodyn_file. cbn [snd].
  split; [|split; [|split]].
  - rewrite finish_blades.
    now rewrite (ed_loop_field _ _ files (step_blades_stations files)).
  - rewrite finish_tower.
    now rewrite (ed_loop_field _ _ files (step_tower_stations files)).
  - intros raw l. unfold blade_write.
    destruct (classify (strip raw)); cbn [keyword_eqb]; try discriminate.
    destruct (usable _) as [file|]; [|discriminate].
    pose proof (blade_rows_before_table (lines_of file) []) as Hrows.
    destruct (blade_rows _ _ _) as [|s more]; [discriminate|].
    intros H. inversion H; subst. split; [reflexivity|]. split; [discriminate|].
    exists file. split; [reflexivity | exact Hrows].
  - intros raw l. unfold tower_write.
    destruct (classify (strip raw)); cbn [keyword_eqb]; try discriminate.
    destruct (usable _) as [file|]; [|discriminate].
    pose proof (tower_rows_before_table (lines_of file) []) as Hrows.
    destruct (tower_rows _ _ _) as [|s more]; [discriminate|].
    intros H. inversion H; subst. split; [reflexivity|]. split; [discriminate|].
    exists file. split; [reflexivity | exact Hrows].
Qed.

Lemma X15_stations_from_last_reference_witness :
  exists file,
    usable (resolve [("b.dat", unlines [blade_header; "0.0 0.0 5.0"])]
              (read_value (strip "b.dat BldFile") TStr)) = Some file
    /\ [Geometry.mkBladeStation f0 f0 f5] = blade_table file.
Proof.
  exact (proj2 (proj2 (proj1 (proj2 (proj2
           (X15_stations_from_last_reference
              [("b.dat", unlines [blade_header; "0.0 0.0 5.0"])]
              EmptyString Geometry.empty)))
           "b.dat BldFile" [Geometry.mkBladeStation f0 f0 f5] eq_refl))).
Defined.

(** X16.  The main-file parser records the warning about the missing
    structural file exactly when no line is a structural reference that
    resolves: then it is the last warning; otherwise the label [ElastoDyn]
    is among the files read and no added warning is that one. *)
Theorem X16_missing_structural_warning (files : FileStore.t) (content : string)
    (g : Geometry.t) :
  let r := snd (parse_main_file files content g) in
  (existsb (resolves_ed files) (lines_of content) = false ->
     exists w, Geometry.warnings r = (Geometry.warnings g ++ w ++ [no_ed_warning])%list
               /\ Forall loop_warning w)
  /\ (existsb (resolves_ed files) (lines_of content) = true ->
      In "ElastoDyn" (Geometry.filesRead r)
      /\ exists w, Geometry.warnings r = (Geometry.warnings g ++ w)%list
                   /\ Forall loop_warning w)
  /\ (forall w, loop_warning w -> w <> no_ed_warning).
Proof.
  intros r. subst r. unfold parse_main_file. cbn [snd].
  set (st0 := mkMain g false false).
  pose proof (main_loop_found files (lines_of content) st0) as Hf.
  cbn [found_ed st0 orb] in Hf.
  pose proof (grows_main_loop files (lines_of content) g st0 (grows_refl _ g))
    as (_ & (w & Hw & Hall) & _).
  split; [|split].
  - intros E. rewrite Hf, E. exists w.
    cbn [Geometry.add_read Geometry.add_warning Geometry.warnings].
    rewrite Hw, <- app_assoc. now split.
  - intros E. rewrite Hf, E. split.
    + cbn [Geometry.add_read Geometry.filesRead]. rewrite in_app_iff. left.
      now apply main_loop_label.
    + exists w. cbn [Geometry.add_read Geometry.warnings]. now split.
  - apply loop_warning_other.
Qed.

Lemma X16_missing_structural_warning_witness :
  In "ElastoDyn"
    (Geometry.filesRead
       (snd (parse_main_file [("x.dat", "3 NumBl")] "x.dat EDFile" Geometry.empty))).
Proof.
  exact (proj1 (proj1 (proj2 (X16_missing_structural_warning
                                [("x.dat", "3 NumBl")] "x.dat EDFile"
                                Geometry.empty))
                  eq_refl)).
Defined.

(** X17.  In the main file, a line whose first character after the blanks
    is [!] or [-] changes nothing, whatever keyword it mentions: it is
    skipped, or the reader finds no name on it. *)
Theorem X17_main_comment_line (files : FileStore.t) (line : string)
    (st : main_state) :
  starts_with_delim line = true -> main_step files line st = st.
Proof.
  intros H. unfold main_step.
  rewrite (read_value_nothing line TStr (or_introl H)).
  destruct (is_skipped line); [reflexivity|].
  destruct (is_ed_reference line); [reflexivity|].
  destruct (is_aero_reference line); reflexivity.
Qed.

Lemma X17_main_comment_line_witness :
  main_step [("x.dat", "3 NumBl")] "- x.dat EDFile" (mkMain Geometry.empty false false)
  = mkMain Geometry.empty false false.
Proof.
  exact (X17_main_comment_line [("x.dat", "3 NumBl")] "- x.dat EDFile"
           (mkMain Geometry.empty false false) eq_refl).
Defined.

(** X18.  Geometry comes from structural files only: when no line of the
    main file is a structural reference that resolves, the parser leaves
    [config], [blades], [tower] and [hub] as they were, whatever the
    aerodynamic references and the stored files. *)
Theorem X18_fields_need_structural_file (files : FileStore.t) (content : string)
    (g : Geometry.t) :
  existsb (resolves_ed files) (lines_of content) = false ->
  let r := snd (parse_main_file files content g) in
  Geometry.config r = Geometry.config g
  /\ Geometry.blades r = Geometry.blades g
  /\ Geometry.tower r = Geometry.tower g
  /\ Geometry.hub r = Geometry.hub g.
Proof.
  intros H r. subst r. unfold parse_main_file. cbn [snd].
  destruct (main_loop_fields files (lines_of content) (mkMain g false false) H)
    as (Hc & Hb & Ht & Hh).
  destruct (found_ed _); cbn; auto.
Qed.

Lemma X18_fields_need_structural_file_witness :
  Geometry.config
    (snd (parse_main_file [("x.dat", "3 NumBl")]
            (unlines ["aero.dat AeroFile"; "missing.dat EDFile"]) Geometry.empty))
  = Geometry.config Geometry.empty.
Proof.
  exact (proj1 (X18_fields_need_structural_file [("x.dat", "3 NumBl")]
                  (unlines ["aero.dat AeroFile"; "missing.dat EDFile"])
                  Geometry.empty eq_refl)).
Defined.

(** X19.  The header of a table is recognised in any letter case: a line is
    a header exactly when its upper-case and its lower-case forms are. *)
Theorem X19_header_any_case (line : string) :
  is_blade_header (upper line) = is_blade_header line
  /\ is_blade_header (lower line) = is_blade_header line
  /\ is_tower_header (upper line) = is_tower_header line
  /\ is_tower_header (lower line) = is_tower_header line.
Proof.
  unfold is_blade_header, is_tower_header.
  now rewrite upper_upper, upper_lower.
Qed.

End Extras.
